(** * RfPy command-line option resolvers ([rfpy/options.py])

    A shallow embedding of the six option resolvers of RfPy
    ([get_calc_options], [get_recalc_options], [get_hk_options],
    [get_harmonics_options], [get_ccp_options], [get_plot_options]) and the
    properties of their validation logic.

    Each resolver first builds an [optparse.OptionParser], calls
    [parser.parse_args()] and then post-processes the parsed values.  The
    embedding starts right after [parse_args()]: a resolver takes the
    attribute values as [optparse] delivers them (after its own [type=]
    conversion and [default=] filling) together with the positional
    arguments, and returns what the Python function returns, or the way it
    stops. *)

From Stdlib Require Import String Ascii List Bool ZArith Lia Floats Permutation.
Import ListNotations.
Local Open Scope string_scope.
Local Open Scope list_scope.

(* Decimal literals such as 0.05 denote the nearest binary64 value, as they
   do in Python. *)
#[local] Set Warnings "-inexact-float".

(** ** Python floats

    A Python [float] is an IEEE 754 binary64 value: Rocq's primitive [float].
    Comparisons are the IEEE ones ([<?], [<=?], [=?]): every comparison with
    a NaN is [false]. *)

Module PyFloat.

Definition lt (x y : float) : bool := (x <? y)%float.
Definition le (x y : float) : bool := (x <=? y)%float.
Definition gt (x y : float) : bool := lt y x.

(** [bool(x)] for a float: everything but [0.0] and [-0.0] is true (NaN too). *)
Definition truthy (x : float) : bool := negb (x =? 0)%float.

(** [min(a, b)] and [max(a, b)] as the builtins compute them on two
    arguments: the first argument is kept unless the second one is strictly
    smaller (larger). *)
Definition min (a b : float) : float := if lt b a then b else a.
Definition max (a b : float) : float := if gt b a then b else a.

End PyFloat.

(** ** Python builtins used by the resolvers *)

Module Py.

(** [s.split(sep)] for a one-character separator: the pieces between the
    separators, empty pieces kept; the empty string gives one empty piece. *)
Fixpoint split (sep : ascii) (s : string) : list string :=
  match s with
  | EmptyString => [EmptyString]
  | String c rest =>
      if Ascii.eqb c sep then EmptyString :: split sep rest
      else match split sep rest with
           | [] => [String c EmptyString]
           | piece :: pieces => String c piece :: pieces
           end
  end.

(** [x in l] for strings. *)
Definition mem (x : string) (l : list string) : bool := existsb (String.eqb x) l.

(** [bool(s)] for a string. *)
Definition truthy_str (s : string) : bool := negb (String.length s =? 0)%nat.

(** [bool(v)] for a value that is [None] or a float. *)
Definition truthy_opt (v : option float) : bool :=
  match v with
  | None => false
  | Some x => PyFloat.truthy x
  end.

(** [sorted(l)] on floats, as CPython 3.11 computes it on a list of fewer
    than 64 elements ([listsort] of [Objects/listobject.c]), with [<] as the
    only comparison.  [count_run] takes the run the list starts with: the
    longest prefix in which no element is below the one before it, or, when
    the second element is below the first, the longest prefix in which every
    element is below the one before it, and this one is reversed.
    [binarysort] then puts the remaining elements, from the left, each at
    the place a binary search finds in the part already in order.

    On a longer list CPython merges several such runs; the outcome is the
    same as here whenever no element is NaN (the sort is stable), and the
    resolvers refuse every list of more than three floats after the sort,
    whatever its order. *)
Fixpoint ascending_run (prev : float) (l : list float)
  : list float * list float :=
  match l with
  | [] => ([], [])
  | x :: rest =>
      if PyFloat.lt x prev then ([], l)
      else let (run, others) := ascending_run x rest in (x :: run, others)
  end.

Fixpoint descending_run (prev : float) (l : list float)
  : list float * list float :=
  match l with
  | [] => ([], [])
  | x :: rest =>
      if PyFloat.lt x prev
      then let (run, others) := descending_run x rest in (x :: run, others)
      else ([], l)
  end.

(** The run in order, and the elements after it. *)
Definition count_run (l : list float) : list float * list float :=
  match l with
  | [] => ([], [])
  | [x] => ([x], [])
  | first :: second :: rest =>
      if PyFloat.lt second first then
        let (run, others) := descending_run second rest in
        (rev (first :: second :: run), others)
      else
        let (run, others) := ascending_run second rest in
        (first :: second :: run, others)
  end.

(** The binary search of [binarysort] for the place of [pivot] among the
    elements of [a] between [l] and [r]:
<<
    do { p = l + ((r - l) >> 1);
         IFLT(pivot, *p) r = p; else l = p+1;
    } while (l < r);
>>
    [steps] bounds the number of turns; the length of [a] is enough. *)
Fixpoint search (steps : nat) (pivot : float) (a : list float) (l r : nat)
  : nat :=
  match steps with
  | O => l
  | S steps' =>
      if (l <? r)%nat then
        let p := (l + (r - l) / 2)%nat in
        if PyFloat.lt pivot (nth p a pivot) then search steps' pivot a l p
        else search steps' pivot a (p + 1) r
      else l
  end.

Definition binary_insert (a : list float) (pivot : float) : list float :=
  let l := search (length a) pivot a 0 (length a) in
  firstn l a ++ pivot :: skipn l a.

Definition sorted (l : list float) : list float :=
  let (run, others) := count_run l in fold_left binary_insert others run.

(** Adjacent elements are in [<=] order. *)
Fixpoint ascending (l : list float) : bool :=
  match l with
  | [] => true
  | x :: rest =>
      match rest with
      | [] => true
      | y :: _ => PyFloat.le x y && ascending rest
      end
  end.

Definition nan_free (l : list float) : bool :=
  forallb (fun x => negb (is_nan x)) l.

(** Each element is below the one before it. *)
Fixpoint falling (l : list float) : bool :=
  match l with
  | [] => true
  | x :: rest =>
      match rest with
      | [] => true
      | y :: _ => PyFloat.lt y x && falling rest
      end
  end.

End Py.

(** ** How a resolver ends, and what it prints *)

(** [parser.error(msg)] prints the usage and [msg] on standard error and
    leaves the process with status 2; an exception that nothing catches
    ends it with a traceback. *)
Inductive failure : Type :=
| ParserError (msg : string)
| Raised (exn : string).

(** What [print] writes on standard output: a string, or the [repr] of a
    list of strings. *)
Inductive printed : Type :=
| Line (s : string)
| ListRepr (l : list string).

Inductive result (A : Type) : Type :=
| Ok (a : A)
| Fail (e : failure).
Arguments Ok {A} a.
Arguments Fail {A} e.

(** A resolver threads the lines printed so far and stops at the first
    failure. *)
Definition M (A : Type) : Type := list printed -> result (A * list printed).

Definition ret {A} (a : A) : M A := fun out => Ok (a, out).

Definition bind {A B} (m : M A) (k : A -> M B) : M B :=
  fun out =>
    match m out with
    | Ok (a, out') => k a out'
    | Fail e => Fail e
    end.

Definition lift {A} (r : result A) : M A :=
  fun out =>
    match r with
    | Ok a => Ok (a, out)
    | Fail e => Fail e
    end.

Definition print (s : string) : M unit := fun out => Ok (tt, out ++ [Line s]).
Definition print_list (l : list string) : M unit :=
  fun out => Ok (tt, out ++ [ListRepr l]).
Definition parser_error {A} (msg : string) : result A := Fail (ParserError msg).

Declare Scope resolver_scope.
Delimit Scope resolver_scope with resolver.
Notation "x <- m ;; k" := (bind m (fun x => k))
  (at level 61, m at next level, right associativity) : resolver_scope.
Local Open Scope resolver_scope.

(** ** What the resolvers take from outside

    [exist] is [os.path.exists], [float_of_str] the builtin [float] on a
    string ([None] when it raises [ValueError]), and [utc_parses] tells
    whether obspy's [UTCDateTime] accepts a string. *)
Record Env : Type := {
  exist : string -> bool;
  float_of_str : string -> option float;
  utc_parses : string -> bool
}.

(** The time object built from a string that [UTCDateTime] accepts. *)
Inductive utc : Type := UTCDateTime (s : string).

(** ** The blocks the six resolvers share

    The resolvers repeat the same blocks of code, with another option name
    in the message; each block is embedded once. *)

Module Block.
Section WithEnv.
Variable E : Env.

(** [if len(args) != 1: parser.error(...)], [indb = args[0]],
    [if not exist(indb): parser.error(...)]. *)
Definition check_inputs (args : list string) : result string :=
  match args with
  | [indb] =>
      if negb (exist E indb)
      then parser_error ("Input file " ++ indb ++ " does not exist")
      else Ok indb
  | _ => parser_error "Need station database file"
  end.

(** [if len(opts.stkeys) > 0: opts.stkeys = opts.stkeys.split(',')]: the
    attribute stays the empty string, or becomes a list. *)
Definition station_keys (stkeys : string) : string + list string :=
  if (0 <? String.length stkeys)%nat then inr (Py.split "," stkeys)
  else inl stkeys.

(** The start and end time blocks; [which] is ["start"] or ["end"]. *)
Definition construct_time (which : string) (t : string) : result (option utc) :=
  if (0 <? String.length t)%nat then
    if utc_parses E t then Ok (Some (UTCDateTime t))
    else parser_error
           ("Cannot construct UTCDateTime from " ++ which ++ " time: " ++ t)
  else Ok None.

(** [[float(val) for val in s.split(',')]] *)
Fixpoint floats (pieces : list string) : result (list float) :=
  match pieces with
  | [] => Ok []
  | val :: rest =>
      match float_of_str E val with
      | None => Fail (Raised "ValueError")
      | Some x =>
          match floats rest with
          | Ok xs => Ok (x :: xs)
          | Fail e => Fail e
          end
      end
  end.

Definition float_list (s : string) : result (list float) :=
  floats (Py.split "," s).

(** The block of a sorted list option of [n] floats:
<<
    opts.x = [float(val) for val in opts.x.split(',')]
    opts.x = sorted(opts.x)
    if (len(opts.x)) != n:
        parser.error(msg)
>> *)
Definition sorted_floats (n : nat) (msg : string) (s : string)
  : result (list float) :=
  match float_list s with
  | Fail e => Fail e
  | Ok vals =>
      let vals := Py.sorted vals in
      if negb (length vals =? n)%nat then parser_error msg else Ok vals
  end.

(** The same block without the sort (the end points of the CCP line). *)
Definition plain_floats (n : nat) (msg : string) (s : string)
  : result (list float) :=
  match float_list s with
  | Fail e => Fail e
  | Ok vals => if negb (length vals =? n)%nat then parser_error msg else Ok vals
  end.

(** [if opts.x is None: opts.x = default else: <sorted block>] *)
Definition sorted_floats_or (default : list float) (n : nat) (msg : string)
  (x : option string) : result (list float) :=
  match x with
  | None => Ok default
  | Some s => sorted_floats n msg s
  end.

(** [if opts.x is not None: <sorted block>] *)
Definition sorted_floats_if_given (n : nat) (msg : string) (x : option string)
  : result (option (list float)) :=
  match x with
  | None => Ok None
  | Some s =>
      match sorted_floats n msg s with
      | Ok vals => Ok (Some vals)
      | Fail e => Fail e
      end
  end.

(** The alignment block. *)
Definition alignment (align : option string) : result string :=
  match align with
  | None => Ok "ZRT"
  | Some a =>
      if negb (Py.mem a ["ZRT"; "LQT"; "PVH"])
      then parser_error
             "Error: Incorrect alignment specifier. Should be either 'ZRT', 'LQT', or 'PVH'."
      else Ok a
  end.

(** The deconvolution method block. *)
Definition check_method (method : string) : result unit :=
  if negb (Py.mem method ["wiener"; "water"; "multitaper"])
  then parser_error
         "Error: 'method' should be either 'wiener', 'water' or 'multitaper'"
  else Ok tt.

(** The phase block of the recalc and plot variants.  [phase] is [None]
    when the attribute is [None], and [None] is not in the list. *)
Definition list_phase (phase : option string) : result (list string) :=
  match phase with
  | None =>
      parser_error
        "Error: choose between 'P', 'PP', 'allP', 'S', 'SKS' and 'allS'."
  | Some p =>
      if negb (Py.mem p ["P"; "PP"; "allP"; "S"; "SKS"; "allS"])
      then parser_error
             "Error: choose between 'P', 'PP', 'allP', 'S', 'SKS' and 'allS'."
      else if String.eqb p "allP" then Ok ["P"; "PP"]
      else if String.eqb p "allS" then Ok ["S"; "SKS"]
      else Ok [p]
  end.

End WithEnv.
End Block.

(** ** [get_calc_options]

    The attributes the function reads or writes after [parse_args()]; the
    other options ([verb], [ovr], [Server], [useNet], [reverse], [minmag],
    [maxmag], [new_sampling_rate], [vp], [vs], [fmin], [fmax], [gfilt],
    [wlevel]) are returned as parsed. *)

Module Calc.

(** The attributes as [parse_args()] delivers them. *)
Module Parsed.
Record t : Type := {
  stkeys : string;
  startT : string;
  endT : string;
  UserAuth : string;
  localdata : option string;
  ndval : bool;
  phase : string;
  mindist : option float;
  maxdist : option float;
  pre_filt : option string;
  align : option string;
  dt_snr : float;
  dts : float;
  method : string
}.

(** The [default=] values of the options. *)
Definition defaults : t := {|
  stkeys := EmptyString;
  startT := EmptyString;
  endT := EmptyString;
  UserAuth := EmptyString;
  localdata := None;
  ndval := false;
  phase := "P";
  mindist := None;
  maxdist := None;
  pre_filt := None;
  align := None;
  dt_snr := 30%float;
  dts := 150%float;
  method := "wiener"
|}.

Definition with_mindist (v : option float) (p : t) : t :=
  {| stkeys := stkeys p; startT := startT p; endT := endT p;
     UserAuth := UserAuth p; localdata := localdata p; ndval := ndval p;
     phase := phase p; mindist := v; maxdist := maxdist p;
     pre_filt := pre_filt p; align := align p; dt_snr := dt_snr p;
     dts := dts p; method := method p |}.

Definition with_maxdist (v : option float) (p : t) : t :=
  {| stkeys := stkeys p; startT := startT p; endT := endT p;
     UserAuth := UserAuth p; localdata := localdata p; ndval := ndval p;
     phase := phase p; mindist := mindist p; maxdist := v;
     pre_filt := pre_filt p; align := align p; dt_snr := dt_snr p;
     dts := dts p; method := method p |}.

Definition with_phase (v : string) (p : t) : t :=
  {| stkeys := stkeys p; startT := startT p; endT := endT p;
     UserAuth := UserAuth p; localdata := localdata p; ndval := ndval p;
     phase := v; mindist := mindist p; maxdist := maxdist p;
     pre_filt := pre_filt p; align := align p; dt_snr := dt_snr p;
     dts := dts p; method := method p |}.

End Parsed.

(** The attributes when the function returns. *)
Record opts : Type := {
  stkeys : string + list string;
  startT : option utc;
  endT : option utc;
  UserAuth : list string;
  localdata : list string;
  ndval : float;
  phase : string;
  mindist : option float;
  maxdist : option float;
  pre_filt : option (list float);
  align : string;
  dt_snr : float;
  dts : float;
  method : string
}.

(** One branch of the distance block, for a phase whose distances range
    over [lo, hi]:
<<
    if not opts.mindist: opts.mindist = lo
    if not opts.maxdist: opts.maxdist = hi
    if opts.mindist < lo or opts.maxdist > hi: parser.error(msg)
>> *)
Definition distance_branch (lo hi : float) (msg : string)
  (mindist maxdist : option float) : result (option float * option float) :=
  let mindist := if negb (Py.truthy_opt mindist) then lo
                 else match mindist with Some x => x | None => lo end in
  let maxdist := if negb (Py.truthy_opt maxdist) then hi
                 else match maxdist with Some x => x | None => hi end in
  if PyFloat.lt mindist lo || PyFloat.gt maxdist hi then parser_error msg
  else Ok (Some mindist, Some maxdist).

(** "Check distances for selected phase" *)
Definition check_distances (phase : string) (mindist maxdist : option float)
  : result (option float * option float) :=
  if negb (Py.mem phase ["P"; "PP"; "S"; "SKS"])
  then parser_error "Error: choose between 'P', 'PP', 'S' and 'SKS'."
  else if String.eqb phase "P" then
    distance_branch 30 100
      "Distances should be between 30 and 100 deg. for teleseismic 'P' waves."
      mindist maxdist
  else if String.eqb phase "PP" then
    distance_branch 100 180
      "Distances should be between 100 and 180 deg. for teleseismic 'PP' waves."
      mindist maxdist
  else if String.eqb phase "S" then
    distance_branch 55 85
      "Distances should be between 55 and 85 deg. for teleseismic 'S' waves."
      mindist maxdist
  else if String.eqb phase "SKS" then
    distance_branch 85 115
      "Distances should be between 85 and 115 deg. for teleseismic 'SKS' waves."
      mindist maxdist
  else Ok (mindist, maxdist).

(** "Parse User Authentification" *)
Definition user_auth (UserAuth : string) : result (list string) :=
  if negb (String.length UserAuth =? 0)%nat then
    let tt := Py.split ":" UserAuth in
    if negb (length tt =? 2)%nat
    then parser_error
           "Error: Incorrect Username and Password Strings for User Authentification"
    else Ok tt
  else Ok [].

Definition snr_warning : string :=
  "SNR window > data window. Defaulting to data window minus 10 sec.".

(** [if opts.dt_snr > opts.dts: opts.dt_snr = opts.dts - 10.; print(...)] *)
Definition snr_window (dt_snr dts : float) : M float :=
  if PyFloat.gt dt_snr dts then
    let dt_snr := (dts - 10)%float in
    _ <- print snr_warning ;;
    ret dt_snr
  else ret dt_snr.

Section WithEnv.
Variable E : Env.

Definition get_calc_options (p : Parsed.t) (args : list string)
  : M (opts * string) :=
  indb <- lift (Block.check_inputs E args) ;;
  let stkeys := Block.station_keys (Parsed.stkeys p) in
  startT <- lift (Block.construct_time E "start" (Parsed.startT p)) ;;
  endT <- lift (Block.construct_time E "end" (Parsed.endT p)) ;;
  UserAuth <- lift (user_auth (Parsed.UserAuth p)) ;;
  let localdata := match Parsed.localdata p with
                   | Some s => Py.split "," s
                   | None => []
                   end in
  let ndval := if Parsed.ndval p then 0%float else nan in
  dist <- lift (check_distances (Parsed.phase p) (Parsed.mindist p)
                  (Parsed.maxdist p)) ;;
  pre_filt <- lift (Block.sorted_floats_if_given E 2
                      "Error: --pre-filt should contain 2 comma-separated floats"
                      (Parsed.pre_filt p)) ;;
  align <- lift (Block.alignment (Parsed.align p)) ;;
  dt_snr <- snr_window (Parsed.dt_snr p) (Parsed.dts p) ;;
  _ <- lift (Block.check_method (Parsed.method p)) ;;
  ret ({| stkeys := stkeys; startT := startT; endT := endT;
          UserAuth := UserAuth; localdata := localdata; ndval := ndval;
          phase := Parsed.phase p; mindist := fst dist; maxdist := snd dist;
          pre_filt := pre_filt; align := align; dt_snr := dt_snr;
          dts := Parsed.dts p; method := Parsed.method p |}, indb).

End WithEnv.
End Calc.

(** An attribute that holds a list option: still as parsed ([None] or the
    string), or the list of floats the resolver put there. *)
Inductive list_attr : Type :=
| AsParsed (v : option string)
| Floats (l : list float).

(** ** [get_recalc_options] *)

Module Recalc.

Module Parsed.
Record t : Type := {
  stkeys : string;
  phase : string;
  align : option string;
  method : string;
  pre_filt : option string
}.

Definition defaults : t := {|
  stkeys := EmptyString;
  phase := "allP";
  align := None;
  method := "wiener";
  pre_filt := None
|}.
End Parsed.

Record opts : Type := {
  stkeys : string + list string;
  phase : string;
  listphase : list string;
  align : string;
  method : string;
  pre_filt : option (list float)
}.

Section WithEnv.
Variable E : Env.

Definition get_recalc_options (p : Parsed.t) (args : list string)
  : M (opts * string) :=
  indb <- lift (Block.check_inputs E args) ;;
  let stkeys := Block.station_keys (Parsed.stkeys p) in
  listphase <- lift (Block.list_phase (Some (Parsed.phase p))) ;;
  align <- lift (Block.alignment (Parsed.align p)) ;;
  _ <- lift (Block.check_method (Parsed.method p)) ;;
  pre_filt <- lift (Block.sorted_floats_if_given E 2
                      "Error: --pre-filt should contain 2 comma-separated floats"
                      (Parsed.pre_filt p)) ;;
  ret ({| stkeys := stkeys; phase := Parsed.phase p; listphase := listphase;
          align := align; method := Parsed.method p; pre_filt := pre_filt |},
       indb).

End WithEnv.
End Recalc.

(** ** [get_hk_options] *)

Module HK.

Module Parsed.
Record t : Type := {
  stkeys : string;
  startT : string;
  endT : string;
  strike : option float;
  dip : option float;
  nbaz : Z;
  bp : option string;
  slowbound : option string;
  bazbound : option string;
  copy : bool;
  bp_copy : option string;
  hbound : option string;
  kbound : option string;
  weights : option string
}.

Definition defaults : t := {|
  stkeys := EmptyString;
  startT := EmptyString;
  endT := EmptyString;
  strike := None;
  dip := None;
  nbaz := 36;
  bp := None;
  slowbound := None;
  bazbound := None;
  copy := false;
  bp_copy := None;
  hbound := None;
  kbound := None;
  weights := None
|}.
End Parsed.

Record opts : Type := {
  stkeys : string + list string;
  startT : option utc;
  endT : option utc;
  strike : option float;
  dip : option float;
  calc_dip : bool;
  nbaz : option Z;
  bp : list float;
  slowbound : list float;
  bazbound : list float;
  copy : bool;
  bp_copy : list_attr;
  hbound : list float;
  kbound : list float;
  weights : list float
}.

(** The strike and dip block: [calc_dip] and the new [nbaz]. *)
Definition dipping (strike dip : option float) (nbaz : Z)
  : result (bool * option Z) :=
  match strike, dip with
  | None, None => Ok (false, None)
  | Some _, Some _ => Ok (true, Some nbaz)
  | _, _ => parser_error "Specify both strike and dip for this type of analysis"
  end.

Section WithEnv.
Variable E : Env.

(** [if opts.copy: ...] *)
Definition copy_band (copy : bool) (bp_copy : option string) : result list_attr :=
  if copy then
    match Block.sorted_floats_or E [0.05; 0.35]%float 2
            "Error: --bp_copy should contain 2 comma-separated floats" bp_copy with
    | Ok vals => Ok (Floats vals)
    | Fail e => Fail e
    end
  else Ok (AsParsed bp_copy).

Definition get_hk_options (p : Parsed.t) (args : list string)
  : M (opts * string) :=
  indb <- lift (Block.check_inputs E args) ;;
  let stkeys := Block.station_keys (Parsed.stkeys p) in
  startT <- lift (Block.construct_time E "start" (Parsed.startT p)) ;;
  endT <- lift (Block.construct_time E "end" (Parsed.endT p)) ;;
  dipping <- lift (dipping (Parsed.strike p) (Parsed.dip p) (Parsed.nbaz p)) ;;
  bp <- lift (Block.sorted_floats_or E [0.05; 0.5]%float 2
                "Error: --bp should contain 2 comma-separated floats"
                (Parsed.bp p)) ;;
  slowbound <- lift (Block.sorted_floats_or E [0.04; 0.08]%float 2
                       "Error: --slowbound should contain 2 comma-separated floats"
                       (Parsed.slowbound p)) ;;
  bazbound <- lift (Block.sorted_floats_or E [0.0; 360.0]%float 2
                      "Error: --bazbound should contain 2 comma-separated floats"
                      (Parsed.bazbound p)) ;;
  bp_copy <- lift (copy_band (Parsed.copy p) (Parsed.bp_copy p)) ;;
  hbound <- lift (Block.sorted_floats_or E [20; 50]%float 2
                    "Error: --hbound should contain 2 comma-separated floats"
                    (Parsed.hbound p)) ;;
  kbound <- lift (Block.sorted_floats_or E [1.56; 2.1]%float 2
                    "Error: --kbound should contain 2 comma-separated floats"
                    (Parsed.kbound p)) ;;
  weights <- lift (Block.sorted_floats_or E [0.5; 2.0; -1.0]%float 3
                     "Error: --weights should contain 3 comma-separated floats"
                     (Parsed.weights p)) ;;
  ret ({| stkeys := stkeys; startT := startT; endT := endT;
          strike := Parsed.strike p; dip := Parsed.dip p;
          calc_dip := fst dipping; nbaz := snd dipping;
          bp := bp; slowbound := slowbound; bazbound := bazbound;
          copy := Parsed.copy p; bp_copy := bp_copy;
          hbound := hbound; kbound := kbound; weights := weights |}, indb).

End WithEnv.
End HK.

(** ** [get_harmonics_options] *)

Module Harmonics.

Module Parsed.
Record t : Type := {
  stkeys : string;
  startT : string;
  endT : string;
  bp : option string;
  azim : option float;
  find_azim : bool;
  trange : option string
}.

Definition defaults : t := {|
  stkeys := EmptyString;
  startT := EmptyString;
  endT := EmptyString;
  bp := None;
  azim := None;
  find_azim := false;
  trange := None
|}.
End Parsed.

Record opts : Type := {
  stkeys : string + list string;
  startT : option utc;
  endT : option utc;
  bp : list float;
  azim : option float;
  find_azim : bool;
  trange : list_attr
}.

Definition azim_warning : string :=
  "Warning: Setting both '--azim' and '--find-azim' is conflictual. Ignoring '--find-azim'".

(** The first [if]/[elif] on [azim] and [find_azim]: the new values of the
    two attributes. *)
Definition azimuth (azim : option float) (find_azim : bool)
  : M (option float * bool) :=
  match azim with
  | Some a =>
      if find_azim then
        _ <- print azim_warning ;;
        ret (Some a, false)
      else ret (Some a, find_azim)
  | None =>
      if negb find_azim then ret (Some 0%float, find_azim)
      else ret (None, find_azim)
  end.

Section WithEnv.
Variable E : Env.

(** [if opts.find_azim: ...] *)
Definition time_range (find_azim : bool) (trange : option string) : M list_attr :=
  if find_azim then
    match trange with
    | None => ret (Floats [0; 10]%float)
    | Some s =>
        _ <- print_list (Py.split "," s) ;;
        vals <- lift (Block.sorted_floats E 2
                        "Error: --trange should contain 2 comma-separated floats" s) ;;
        ret (Floats vals)
    end
  else ret (AsParsed trange).

Definition get_harmonics_options (p : Parsed.t) (args : list string)
  : M (opts * string) :=
  indb <- lift (Block.check_inputs E args) ;;
  let stkeys := Block.station_keys (Parsed.stkeys p) in
  startT <- lift (Block.construct_time E "start" (Parsed.startT p)) ;;
  endT <- lift (Block.construct_time E "end" (Parsed.endT p)) ;;
  bp <- lift (Block.sorted_floats_or E [0.05; 0.5]%float 2
                "Error: --bp should contain 2 comma-separated floats"
                (Parsed.bp p)) ;;
  az <- azimuth (Parsed.azim p) (Parsed.find_azim p) ;;
  trange <- time_range (snd az) (Parsed.trange p) ;;
  ret ({| stkeys := stkeys; startT := startT; endT := endT; bp := bp;
          azim := fst az; find_azim := snd az; trange := trange |}, indb).

End WithEnv.
End Harmonics.

(** ** [get_ccp_options] *)

Module CCP.

Module Parsed.
Record t : Type := {
  stkeys : string;
  coord_start : option string;
  coord_end : option string;
  load : bool;
  prep : bool;
  prestack : bool;
  ccp : bool;
  gccp : bool;
  linear : bool;
  phase : bool;
  ccp_figure : bool;
  cbound : option float;
  save_figure : bool;
  fmt : string
}.

Definition defaults : t := {|
  stkeys := EmptyString;
  coord_start := None;
  coord_end := None;
  load := false;
  prep := false;
  prestack := false;
  ccp := false;
  gccp := false;
  linear := false;
  phase := false;
  ccp_figure := false;
  cbound := None;
  save_figure := false;
  fmt := "png"
|}.
End Parsed.

Record opts : Type := {
  stkeys : string + list string;
  coord_start : list_attr;
  coord_end : list_attr;
  load : bool;
  prep : bool;
  prestack : bool;
  ccp : bool;
  gccp : bool;
  linear : bool;
  phase : bool;
  ccp_figure : bool;
  cbound : option float;
  save_figure : bool;
  fmt : string
}.

Definition figure_warning : string :=
  "Warning: Figure will not be produced since --figure has not been set.".

(** [if not (opts.load or opts.prep or opts.prestack or opts.ccp or opts.gccp)] *)
Definition check_steps (load prep prestack ccp gccp : bool) : result unit :=
  if negb (load || prep || prestack || ccp || gccp)
  then parser_error
         "Error: needs at least one CCP Setting (--load, --prep, --prestack, --ccp or --gccp"
  else Ok tt.

(** The stacking type: the check that [--linear] and [--phase] are not both
    set, then the two defaults; the second [if] reads the [linear] the first
    one may have set. *)
Definition stacking (ccp gccp linear phase : bool) : result (bool * bool) :=
  if linear && phase
  then parser_error "Error: cannot use --linear and --phase at the same time"
  else
    let linear := if ccp && negb linear && negb phase then true else linear in
    let phase := if gccp && negb linear && negb phase then true else phase in
    Ok (linear, phase).

(** The warning that no figure will be produced. *)
Definition warn_figure (ccp gccp save_figure : bool) (cbound : option float)
  (fmt : string) (ccp_figure : bool) : M unit :=
  if ccp || gccp then
    if (save_figure || Py.truthy_opt cbound || Py.truthy_str fmt)
       && negb ccp_figure
    then print figure_warning
    else ret tt
  else ret tt.

Definition check_figure (ccp_figure ccp gccp : bool) : result unit :=
  if ccp_figure && negb (ccp || gccp)
  then parser_error
         "Error: Cannot produce Figure without specifying the type of stacking [--ccp or --gccp]."
  else Ok tt.

(** The default of the colour bound. *)
Definition colour_bound (cbound : option float) (ccp gccp : bool) : option float :=
  if negb (Py.truthy_opt cbound) && gccp then Some 0.015%float
  else if negb (Py.truthy_opt cbound) && ccp then Some 0.05%float
  else cbound.

Section WithEnv.
Variable E : Env.

(** An end point of the line, read only with [--load]; [flag] is ["start"]
    or ["end"]. *)
Definition coordinate (flag : string) (load : bool) (coord : option string)
  : result list_attr :=
  match coord with
  | None =>
      if load then parser_error ("--" ++ flag ++ "=lon,lat is required")
      else Ok (AsParsed coord)
  | Some s =>
      if load then
        match Block.plain_floats E 2
                ("Error: --" ++ flag ++ " should contain 2 comma-separated floats")
                s with
        | Ok vals => Ok (Floats vals)
        | Fail e => Fail e
        end
      else Ok (AsParsed coord)
  end.

Definition get_ccp_options (p : Parsed.t) (args : list string)
  : M (opts * string) :=
  indb <- lift (Block.check_inputs E args) ;;
  let stkeys := Block.station_keys (Parsed.stkeys p) in
  coord_start <- lift (coordinate "start" (Parsed.load p) (Parsed.coord_start p)) ;;
  coord_end <- lift (coordinate "end" (Parsed.load p) (Parsed.coord_end p)) ;;
  _ <- lift (check_steps (Parsed.load p) (Parsed.prep p) (Parsed.prestack p)
               (Parsed.ccp p) (Parsed.gccp p)) ;;
  stack <- lift (stacking (Parsed.ccp p) (Parsed.gccp p) (Parsed.linear p)
                   (Parsed.phase p)) ;;
  _ <- warn_figure (Parsed.ccp p) (Parsed.gccp p) (Parsed.save_figure p)
         (Parsed.cbound p) (Parsed.fmt p) (Parsed.ccp_figure p) ;;
  _ <- lift (check_figure (Parsed.ccp_figure p) (Parsed.ccp p) (Parsed.gccp p)) ;;
  let cbound := colour_bound (Parsed.cbound p) (Parsed.ccp p) (Parsed.gccp p) in
  ret ({| stkeys := stkeys; coord_start := coord_start; coord_end := coord_end;
          load := Parsed.load p; prep := Parsed.prep p;
          prestack := Parsed.prestack p; ccp := Parsed.ccp p;
          gccp := Parsed.gccp p; linear := fst stack; phase := snd stack;
          ccp_figure := Parsed.ccp_figure p; cbound := cbound;
          save_figure := Parsed.save_figure p; fmt := Parsed.fmt p |}, indb).

End WithEnv.
End CCP.

(** ** [get_plot_options] *)

Module Plot.

Module Parsed.
Record t : Type := {
  stkeys : string;
  slowbound : option string;
  bazbound : option string;
  phase : option string;
  bp : option string;
  trange : option string;
  nbaz : option Z;
  nslow : option Z
}.

Definition defaults : t := {|
  stkeys := EmptyString;
  slowbound := None;
  bazbound := None;
  phase := None;
  bp := None;
  trange := None;
  nbaz := None;
  nslow := None
|}.
End Parsed.

Record opts : Type := {
  stkeys : string + list string;
  slowbound : list float;
  bazbound : list float;
  phase : option string;
  listphase : list string;
  bp : option (list float);
  trange : option (list float);
  tmin : option float;
  tmax : option float;
  nbaz : option Z;
  nslow : option Z
}.

(** The last check: one and only one of [--nbaz] and [--nslow]. *)
Definition check_bins (nbaz nslow : option Z) : result unit :=
  match nbaz, nslow with
  | None, None => parser_error "Specify at least one of --nbaz or --nslow"
  | Some _, Some _ => parser_error "Specify only one of --nbaz or --nslow"
  | _, _ => Ok tt
  end.

Section WithEnv.
Variable E : Env.

Definition get_plot_options (p : Parsed.t) (args : list string)
  : M (opts * string) :=
  indb <- lift (Block.check_inputs E args) ;;
  slowbound <- lift (Block.sorted_floats_or E [0.04; 0.08]%float 2
                       "Error: --slowbound should contain 2 comma-separated floats"
                       (Parsed.slowbound p)) ;;
  bazbound <- lift (Block.sorted_floats_or E [0.0; 360.0]%float 2
                      "Error: --bazbound should contain 2 comma-separated floats"
                      (Parsed.bazbound p)) ;;
  listphase <- lift (Block.list_phase (Parsed.phase p)) ;;
  bp <- lift (Block.sorted_floats_if_given E 2
                "Error: --bp should contain 2 comma-separated floats"
                (Parsed.bp p)) ;;
  let tmin := match Parsed.trange p with None => Some 0%float | Some _ => None end in
  let tmax := match Parsed.trange p with None => Some 30%float | Some _ => None end in
  trange <- lift (Block.sorted_floats_if_given E 2
                    "Error: --trange should contain 2 comma-separated floats"
                    (Parsed.trange p)) ;;
  let stkeys := Block.station_keys (Parsed.stkeys p) in
  _ <- lift (check_bins (Parsed.nbaz p) (Parsed.nslow p)) ;;
  ret ({| stkeys := stkeys; slowbound := slowbound; bazbound := bazbound;
          phase := Parsed.phase p; listphase := listphase; bp := bp;
          trange := trange; tmin := tmin; tmax := tmax;
          nbaz := Parsed.nbaz p; nslow := Parsed.nslow p |}, indb).

End WithEnv.
End Plot.

(** ** A concrete outside world, to run the resolvers

    One station database exists, every time string is accepted, and
    [float] is read off plain decimal literals [-ddd.ddd] of a few digits
    (on these the quotient below is the correctly rounded value, the one
    Python's [float] returns); other strings are taken to raise. *)

Module Sample.

Definition digit (c : ascii) : option Z :=
  let n := (Z.of_nat (nat_of_ascii c) - 48)%Z in
  if ((0 <=? n) && (n <=? 9))%Z then Some n else None.

Fixpoint digits (s : string) (acc : Z) : option Z :=
  match s with
  | EmptyString => Some acc
  | String c rest =>
      match digit c with
      | Some d => digits rest (10 * acc + d)%Z
      | None => None
      end
  end.

Definition of_Z (z : Z) : float := of_uint63 (Uint63.of_Z z).

Definition unsigned (s : string) : option float :=
  match Py.split "." s with
  | [int_part] =>
      match int_part with
      | EmptyString => None
      | _ => option_map of_Z (digits int_part 0)
      end
  | [int_part; frac] =>
      match digits (int_part ++ frac) 0 with
      | Some m => Some (of_Z m / of_Z (10 ^ Z.of_nat (String.length frac)))%float
      | None => None
      end
  | _ => None
  end.

Definition literal (s : string) : option float :=
  match s with
  | String "-" rest => option_map PrimFloat.opp (unsigned rest)
  | _ => unsigned s
  end.

Definition env : Env := {|
  exist := String.eqb "stations.pkl";
  float_of_str := literal;
  utc_parses := fun _ => true
|}.

(** The same world, in which [float] also reads the string [nan], as
    Python's does. *)
Definition literal_or_nan (s : string) : option float :=
  if String.eqb s "nan" then Some nan else literal s.

Definition env_nan : Env := {|
  exist := String.eqb "stations.pkl";
  float_of_str := literal_or_nan;
  utc_parses := fun _ => true
|}.

End Sample.

(** ** Notions used in the statements *)

(** [l] is the ascending sort of the [n] floats read from [s]. *)
Definition sorted_from (E : Env) (n : nat) (s : string) (l : list float) : Prop :=
  exists vals, Block.float_list E s = Ok vals /\ length vals = n /\
               l = Py.sorted vals.

(** A list of two floats in order: the second is not below the first, and
    they are in [<=] order unless one of them is NaN. *)
Definition ordered_pair (l : list float) : Prop :=
  exists low high,
    l = [low; high] /\ PyFloat.lt high low = false /\
    (is_nan low = false -> is_nan high = false -> PyFloat.le low high = true).

(** The phases and their distance ranges, as the four branches have them. *)
Definition phase_ranges : list (string * (float * float)) :=
  [("P", (30, 100)); ("PP", (100, 180)); ("S", (55, 85)); ("SKS", (85, 115))]%float.

(** ** Command lines run in the sample world *)

(** [--bp 0.5,0.05 --slowbound 0.08,0.04 --weights 0.5,2.0,-1.0] *)
Definition hk_given_lists : HK.Parsed.t := {|
  HK.Parsed.stkeys := EmptyString;
  HK.Parsed.startT := EmptyString;
  HK.Parsed.endT := EmptyString;
  HK.Parsed.strike := None;
  HK.Parsed.dip := None;
  HK.Parsed.nbaz := 36;
  HK.Parsed.bp := Some "0.5,0.05";
  HK.Parsed.slowbound := Some "0.08,0.04";
  HK.Parsed.bazbound := None;
  HK.Parsed.copy := false;
  HK.Parsed.bp_copy := None;
  HK.Parsed.hbound := None;
  HK.Parsed.kbound := None;
  HK.Parsed.weights := Some "0.5,2.0,-1.0"
|}.

(** [--bp nan,1.0 --weights 2.0,nan,1.0] *)
Definition hk_nan_lists : HK.Parsed.t := {|
  HK.Parsed.stkeys := EmptyString;
  HK.Parsed.startT := EmptyString;
  HK.Parsed.endT := EmptyString;
  HK.Parsed.strike := None;
  HK.Parsed.dip := None;
  HK.Parsed.nbaz := 36;
  HK.Parsed.bp := Some "nan,1.0";
  HK.Parsed.slowbound := None;
  HK.Parsed.bazbound := None;
  HK.Parsed.copy := false;
  HK.Parsed.bp_copy := None;
  HK.Parsed.hbound := None;
  HK.Parsed.kbound := None;
  HK.Parsed.weights := Some "2.0,nan,1.0"
|}.


(** [--nbaz 36], and [--nbaz 36 --phase P] *)
Definition plot_nbaz (phase : option string) : Plot.Parsed.t := {|
  Plot.Parsed.stkeys := EmptyString;
  Plot.Parsed.slowbound := None;
  Plot.Parsed.bazbound := None;
  Plot.Parsed.phase := phase;
  Plot.Parsed.bp := None;
  Plot.Parsed.trange := None;
  Plot.Parsed.nbaz := Some 36%Z;
  Plot.Parsed.nslow := None
|}.

(** [--mindist 90 --maxdist 40], with the default phase P *)
Definition calc_distances_90_40 : Calc.Parsed.t :=
  Calc.Parsed.with_mindist (Some 90%float)
    (Calc.Parsed.with_maxdist (Some 40%float) Calc.Parsed.defaults).

(** [--load --start 50.5,10.5 --end 40.5,20.5] *)
Definition ccp_load_line : CCP.Parsed.t := {|
  CCP.Parsed.stkeys := EmptyString;
  CCP.Parsed.coord_start := Some "50.5,10.5";
  CCP.Parsed.coord_end := Some "40.5,20.5";
  CCP.Parsed.load := true;
  CCP.Parsed.prep := false;
  CCP.Parsed.prestack := false;
  CCP.Parsed.ccp := false;
  CCP.Parsed.gccp := false;
  CCP.Parsed.linear := false;
  CCP.Parsed.phase := false;
  CCP.Parsed.ccp_figure := false;
  CCP.Parsed.cbound := None;
  CCP.Parsed.save_figure := false;
  CCP.Parsed.fmt := "png"
|}.

(** * Properties *)

(** ** Floats and sorting *)

Module FloatFacts.
Import PyFloat.

Lemma SFcompare_swap (x y : spec_float) :
  SFcompare y x = option_map CompOpp (SFcompare x y).
Proof.
  destruct x as [sx|sx| |sx mx ex], y as [sy|sy| |sy my ey]; simpl;
    try reflexivity;
    try (destruct sx; reflexivity);
    try (destruct sy; reflexivity);
    try (destruct sx, sy; reflexivity).
  destruct sx, sy; simpl; try reflexivity;
    rewrite (Z.compare_antisym ex ey);
    destruct (ex ?= ey)%Z; simpl; try reflexivity;
    change Eq with (CompOpp Eq) at 1;
    rewrite <- (Pos.compare_cont_antisym mx my Eq);
    destruct (Pos.compare_cont Eq mx my); reflexivity.
Qed.

Lemma SFcompare_nan_free (x y : spec_float) :
  x <> S754_nan -> y <> S754_nan -> SFcompare x y <> None.
Proof.
  destruct x, y; simpl; congruence.
Qed.

Lemma is_nan_false (x : float) :
  is_nan x = false -> Prim2SF x <> S754_nan.
Proof.
  unfold is_nan. rewrite eqb_spec. unfold SFeqb.
  intros H E. rewrite E in H. discriminate H.
Qed.

(** [<] is asymmetric on all floats. *)
Lemma lt_asym (x y : float) : lt x y = true -> lt y x = false.
Proof.
  unfold lt. rewrite !ltb_spec. unfold SFltb.
  rewrite (SFcompare_swap (Prim2SF x) (Prim2SF y)).
  destruct (SFcompare (Prim2SF x) (Prim2SF y)) as [[| |]|]; simpl; congruence.
Qed.

Lemma lt_le (x y : float) : lt x y = true -> le x y = true.
Proof.
  unfold lt, le. rewrite ltb_spec, leb_spec. unfold SFltb, SFleb.
  destruct (SFcompare (Prim2SF x) (Prim2SF y)) as [[| |]|]; congruence.
Qed.

(** On floats that are not NaN the order is total. *)
Lemma not_lt_le (x y : float) :
  is_nan x = false -> is_nan y = false -> lt y x = false -> le x y = true.
Proof.
  intros Hx Hy. unfold lt, le. rewrite ltb_spec, leb_spec. unfold SFltb, SFleb.
  rewrite (SFcompare_swap (Prim2SF x) (Prim2SF y)).
  pose proof (SFcompare_nan_free _ _ (is_nan_false x Hx) (is_nan_false y Hy)) as Hc.
  destruct (SFcompare (Prim2SF x) (Prim2SF y)) as [[| |]|]; simpl; congruence.
Qed.

Lemma le_not_lt (x y : float) : le x y = true -> lt y x = false.
Proof.
  unfold lt, le. rewrite ltb_spec, leb_spec. unfold SFltb, SFleb.
  rewrite (SFcompare_swap (Prim2SF x) (Prim2SF y)).
  destruct (SFcompare (Prim2SF x) (Prim2SF y)) as [[| |]|]; simpl; congruence.
Qed.

End FloatFacts.

Module SortFacts.
Import Py.

Lemma split_nonempty sep s : split sep s <> [].
Proof.
  destruct s as [|c rest]; simpl; [discriminate|].
  destruct (Ascii.eqb c sep); [discriminate|].
  destruct (split sep rest); discriminate.
Qed.

Lemma binary_insert_perm a pivot : Permutation (pivot :: a) (binary_insert a pivot).
Proof.
  unfold binary_insert. cbv zeta.
  rewrite <- (firstn_skipn (search (length a) pivot a 0 (length a)) a) at 1.
  apply Permutation_middle.
Qed.

Lemma fold_insert_perm others : forall run,
  Permutation (run ++ others) (fold_left binary_insert others run).
Proof.
  induction others as [|x rest IH]; intros run; simpl.
  - now rewrite app_nil_r.
  - rewrite <- IH. rewrite <- binary_insert_perm.
    symmetry. apply Permutation_middle.
Qed.

Lemma ascending_run_app prev l :
  l = fst (ascending_run prev l) ++ snd (ascending_run prev l).
Proof.
  revert prev. induction l as [|x rest IH]; intros prev; simpl; [reflexivity|].
  destruct (PyFloat.lt x prev); [reflexivity|].
  specialize (IH x). destruct (ascending_run x rest) as [run others].
  simpl in *. now rewrite <- IH.
Qed.

Lemma descending_run_app prev l :
  l = fst (descending_run prev l) ++ snd (descending_run prev l).
Proof.
  revert prev. induction l as [|x rest IH]; intros prev; simpl; [reflexivity|].
  destruct (PyFloat.lt x prev); [|reflexivity].
  specialize (IH x). destruct (descending_run x rest) as [run others].
  simpl in *. now rewrite <- IH.
Qed.

Lemma count_run_perm l :
  Permutation l (fst (count_run l) ++ snd (count_run l)).
Proof.
  destruct l as [|first [|second rest]]; simpl; try reflexivity.
  destruct (PyFloat.lt second first).
  - pose proof (descending_run_app second rest) as H.
    destruct (descending_run second rest) as [run others]. simpl in *.
    rewrite H at 1.
    change (first :: second :: run ++ others)
      with ((first :: second :: run) ++ others).
    apply Permutation_app_tail.
    change (rev run ++ [second]) with (rev (second :: run)).
    change (rev (second :: run) ++ [first]) with (rev (first :: second :: run)).
    apply Permutation_rev.
  - pose proof (ascending_run_app second rest) as H.
    destruct (ascending_run second rest) as [run others]. simpl in *.
    now rewrite H at 1.
Qed.

(** [sorted] permutes its argument. *)
Lemma sorted_perm l : Permutation l (sorted l).
Proof.
  unfold sorted. pose proof (count_run_perm l) as H.
  destruct (count_run l) as [run others]. simpl in H.
  rewrite H. apply fold_insert_perm.
Qed.

Lemma sorted_length l : length (sorted l) = length l.
Proof. symmetry. apply (Permutation_length (sorted_perm l)). Qed.

Lemma nan_free_In l : nan_free l = true <-> (forall x, In x l -> is_nan x = false).
Proof.
  unfold nan_free. rewrite forallb_forall. split; intros H x Hin.
  - now apply negb_true_iff, H.
  - now apply negb_true_iff, H.
Qed.

Lemma nan_free_perm l l' : Permutation l l' -> nan_free l = true -> nan_free l' = true.
Proof.
  intros Hp Hl. apply nan_free_In. intros x Hin.
  apply (proj1 (nan_free_In l) Hl). now apply (Permutation_in _ (Permutation_sym Hp)).
Qed.

Lemma nan_free_nth l i d : nan_free l = true -> i < length l -> is_nan (nth i l d) = false.
Proof.
  intros Hl Hi. apply (proj1 (nan_free_In l) Hl). now apply nth_In.
Qed.

Lemma ascending_tail x l : ascending (x :: l) = true -> ascending l = true.
Proof.
  destruct l as [|y rest]; [reflexivity|].
  simpl. intros H. now apply andb_prop in H as [_ H].
Qed.

Lemma ascending_middle l1 x l2 :
  ascending (l1 ++ l2) = true ->
  (l1 = [] \/ PyFloat.le (last l1 x) x = true) ->
  (l2 = [] \/ PyFloat.le x (hd x l2) = true) ->
  ascending (l1 ++ x :: l2) = true.
Proof.
  intros Hasc Hleft Hright.
  assert (Hbase : ascending l2 = true -> ascending (x :: l2) = true).
  { intros H2. destruct l2 as [|y rest]; [reflexivity|].
    destruct Hright as [Hnil|Hle]; [discriminate|].
    simpl in Hle. change (PyFloat.le x y && ascending (y :: rest) = true).
    now rewrite Hle, H2. }
  induction l1 as [|a rest IH]; [now apply Hbase|].
  destruct Hleft as [Hnil|Hlast]; [discriminate|].
  destruct rest as [|b rest'].
  - simpl in Hlast. simpl app in *.
    change (PyFloat.le a x && ascending (x :: l2) = true).
    rewrite Hlast. simpl. apply Hbase. now apply ascending_tail in Hasc.
  - change (PyFloat.le a b && ascending ((b :: rest') ++ x :: l2) = true).
    change (PyFloat.le a b && ascending ((b :: rest') ++ l2) = true) in Hasc.
    apply andb_prop in Hasc as [Hab Hrest]. rewrite Hab. simpl andb.
    apply IH; [exact Hrest|]. right. exact Hlast.
Qed.

Lemma hd_skipn k : forall (a : list float) d, hd d (skipn k a) = nth k a d.
Proof.
  induction k as [|k IH]; intros a d; destruct a as [|x rest]; simpl; auto.
Qed.

Lemma last_firstn (a : list float) : forall k d,
  0 < k -> k <= length a -> last (firstn k a) d = nth (k - 1) a d.
Proof.
  induction a as [|x rest IH]; intros k d Hpos Hlen; [simpl in Hlen; lia|].
  destruct k as [|k]; [lia|]. simpl in Hlen.
  destruct k as [|k]; [reflexivity|].
  change (firstn (S (S k)) (x :: rest)) with (x :: firstn (S k) rest).
  change (S (S k) - 1) with (S k). change (nth (S k) (x :: rest) d) with (nth k rest d).
  destruct rest as [|y rest']; [simpl in Hlen; lia|].
  change (last (x :: firstn (S k) (y :: rest')) d)
    with (last (firstn (S k) (y :: rest')) d).
  rewrite IH by lia. now replace (S k - 1) with k by lia.
Qed.

Lemma search_spec steps pivot a : forall l r,
  l <= r -> r <= length a -> r - l <= steps ->
  (l = 0 \/ PyFloat.lt pivot (nth (l - 1) a pivot) = false) ->
  (r = length a \/ PyFloat.lt pivot (nth r a pivot) = true) ->
  search steps pivot a l r <= length a /\
  (search steps pivot a l r = 0 \/
   PyFloat.lt pivot (nth (search steps pivot a l r - 1) a pivot) = false) /\
  (search steps pivot a l r = length a \/
   PyFloat.lt pivot (nth (search steps pivot a l r) a pivot) = true).
Proof.
  induction steps as [|steps IH]; intros l r Hlr Hr Hsteps Hleft Hright.
  - cbn [search]. assert (l = r) by lia. subst r.
    repeat split; [lia|assumption|assumption].
  - cbn [search]. destruct (l <? r)%nat eqn:Hlt.
    + apply Nat.ltb_lt in Hlt. cbv zeta.
      assert (Hhalf : (r - l) / 2 < r - l) by (apply Nat.div_lt; lia).
      set (p := l + (r - l) / 2) in *.
      assert (Hp : l <= p < r) by (unfold p; lia).
      destruct (PyFloat.lt pivot (nth p a pivot)) eqn:Hcmp.
      * apply IH; try lia; [assumption|now right].
      * apply IH; try lia; [|assumption].
        right. now replace (p + 1 - 1) with p by lia.
    + apply Nat.ltb_ge in Hlt. assert (l = r) by lia. subst r.
      repeat split; [lia|assumption|assumption].
Qed.

Lemma binary_insert_ascending a pivot :
  nan_free a = true -> is_nan pivot = false -> ascending a = true ->
  ascending (binary_insert a pivot) = true.
Proof.
  intros Ha Hp Hasc. unfold binary_insert. cbv zeta.
  destruct (search_spec (length a) pivot a 0 (length a))
    as (Hk & Hbefore & Hafter); try lia; try (now left).
  set (k := search (length a) pivot a 0 (length a)) in *.
  apply ascending_middle.
  - now rewrite firstn_skipn.
  - destruct Hbefore as [H0|Hcmp]; [left; now rewrite H0|].
    destruct (Nat.eq_dec k 0) as [H0|Hpos]; [left; now rewrite H0|].
    right. rewrite last_firstn by lia.
    apply FloatFacts.not_lt_le; [|assumption|assumption].
    apply nan_free_nth; [assumption|lia].
  - destruct Hafter as [Hall|Hcmp]; [left; rewrite Hall; apply skipn_all|].
    right. rewrite hd_skipn. now apply FloatFacts.lt_le.
Qed.

Lemma binary_insert_nan_free a pivot :
  nan_free a = true -> is_nan pivot = false -> nan_free (binary_insert a pivot) = true.
Proof.
  intros Ha Hp. apply (nan_free_perm (pivot :: a)); [apply binary_insert_perm|].
  simpl. now rewrite Hp, Ha.
Qed.

Lemma fold_insert_ascending others : forall run,
  nan_free run = true -> nan_free others = true -> ascending run = true ->
  ascending (fold_left binary_insert others run) = true.
Proof.
  induction others as [|x rest IH]; intros run Hrun Hothers Hasc; simpl; [assumption|].
  simpl in Hothers. apply andb_prop in Hothers as [Hx Hrest].
  apply negb_true_iff in Hx.
  apply IH; auto using binary_insert_nan_free, binary_insert_ascending.
Qed.

Lemma ascending_run_ascending l : forall prev,
  is_nan prev = false -> nan_free l = true ->
  ascending (prev :: fst (ascending_run prev l)) = true.
Proof.
  induction l as [|x rest IH]; intros prev Hprev Hl; [reflexivity|].
  simpl in Hl. apply andb_prop in Hl as [Hx Hrest]. apply negb_true_iff in Hx.
  simpl ascending_run. destruct (PyFloat.lt x prev) eqn:Hcmp; [reflexivity|].
  specialize (IH x Hx Hrest). destruct (ascending_run x rest) as [run others].
  simpl fst in *.
  change (PyFloat.le prev x && ascending (x :: run) = true).
  now rewrite (FloatFacts.not_lt_le prev x Hprev Hx Hcmp), IH.
Qed.

Lemma descending_run_falling l : forall prev,
  falling (prev :: fst (descending_run prev l)) = true.
Proof.
  induction l as [|x rest IH]; intros prev; [reflexivity|].
  simpl descending_run. destruct (PyFloat.lt x prev) eqn:Hcmp; [|reflexivity].
  specialize (IH x). destruct (descending_run x rest) as [run others].
  simpl fst in *.
  change (PyFloat.lt x prev && falling (x :: run) = true).
  now rewrite Hcmp, IH.
Qed.

Lemma falling_rev l : falling l = true -> ascending (rev l) = true.
Proof.
  induction l as [|x rest IH]; intros H; [reflexivity|].
  simpl rev. replace (rev rest ++ [x]) with (rev rest ++ x :: []) by reflexivity.
  destruct rest as [|y rest'].
  - reflexivity.
  - change (PyFloat.lt y x && falling (y :: rest') = true) in H.
    apply andb_prop in H as [Hyx Hrest].
    apply ascending_middle.
    + rewrite app_nil_r. now apply IH.
    + right. simpl rev. rewrite last_last. now apply FloatFacts.lt_le.
    + now left.
Qed.

Lemma count_run_ascending l :
  nan_free l = true -> ascending (fst (count_run l)) = true.
Proof.
  intros Hl. destruct l as [|first [|second rest]]; try reflexivity.
  simpl in Hl. apply andb_prop in Hl as [Hf Hl]. apply andb_prop in Hl as [Hs Hrest].
  apply negb_true_iff in Hf, Hs.
  unfold count_run. destruct (PyFloat.lt second first) eqn:Hcmp.
  - pose proof (descending_run_falling rest second) as H.
    destruct (descending_run second rest) as [run others]. cbn [fst] in *.
    change (ascending (rev (first :: second :: run)) = true).
    apply falling_rev.
    change (PyFloat.lt second first && falling (second :: run) = true).
    now rewrite Hcmp, H.
  - pose proof (ascending_run_ascending rest second Hs Hrest) as H.
    destruct (ascending_run second rest) as [run others]. simpl fst in *.
    change (PyFloat.le first second && ascending (second :: run) = true).
    now rewrite (FloatFacts.not_lt_le first second Hf Hs Hcmp), H.
Qed.

(** Without NaN, [sorted] returns an ascending list. *)
Lemma sorted_ascending l : nan_free l = true -> ascending (sorted l) = true.
Proof.
  intros Hl. unfold sorted.
  pose proof (count_run_perm l) as Hperm.
  pose proof (count_run_ascending l Hl) as Hasc.
  destruct (count_run l) as [run others]. simpl in Hperm, Hasc.
  pose proof (nan_free_perm _ _ Hperm Hl) as Hall.
  unfold nan_free in Hall. rewrite forallb_app in Hall.
  apply andb_prop in Hall as [Hrun Hothers].
  now apply fold_insert_ascending.
Qed.

(** [sorted] on two elements. *)
Lemma sorted_pair a b :
  sorted [a; b] = if PyFloat.lt b a then [b; a] else [a; b].
Proof.
  unfold sorted, count_run. simpl. now destruct (PyFloat.lt b a).
Qed.

(** A pair given in descending order comes back as [(min, max)]. *)
Lemma sorted_pair_min_max a b :
  PyFloat.gt a b = true -> sorted [a; b] = [PyFloat.min a b; PyFloat.max a b].
Proof.
  unfold PyFloat.gt. intros Hba.
  rewrite sorted_pair. unfold PyFloat.min, PyFloat.max, PyFloat.gt.
  now rewrite Hba, (FloatFacts.lt_asym _ _ Hba).
Qed.

End SortFacts.

(** ** Runs that return *)

Lemma bind_Ok {A B} (m : M A) (k : A -> M B) out b out'' :
  bind m k out = Ok (b, out'') ->
  exists a out', m out = Ok (a, out') /\ k a out' = Ok (b, out'').
Proof.
  unfold bind. destruct (m out) as [[a out']|e]; [|discriminate].
  intros H. now exists a, out'.
Qed.

Lemma lift_Ok {A} (r : result A) out a out' :
  lift r out = Ok (a, out') -> r = Ok a /\ out' = out.
Proof.
  unfold lift. destruct r; [|discriminate]. intros H. now inversion H.
Qed.

Lemma bind_lift_Ok {A B} (a : A) (k : A -> M B) out :
  bind (lift (Ok a)) k out = k a out.
Proof. reflexivity. Qed.

Lemma bind_lift_Fail {A B} (e : failure) (k : A -> M B) out :
  bind (lift (Fail e)) k out = Fail e.
Proof. reflexivity. Qed.

(** ** The sample world reads decimal literals *)

Example literal_0_05 : Sample.literal "0.05" = Some 0.05%float.
Proof. vm_compute. reflexivity. Qed.

Example literal_neg : Sample.literal "-1.5" = Some (-1.5)%float.
Proof. vm_compute. reflexivity. Qed.

(** [sorted] on lists with a NaN: a list that already is a run stays as it
    is, and a later element is placed by the binary search. *)
Example sorted_run_with_nan :
  Py.sorted [2; nan; 1]%float = [2; nan; 1]%float.
Proof. reflexivity. Qed.

Example sorted_insert_after_nan :
  Py.sorted [nan; 1; 0.5]%float = [nan; 0.5; 1]%float.
Proof. reflexivity. Qed.

Example sorted_descending_run :
  Py.sorted [3; 2; 1; 5; 4; 0]%float = [0; 1; 2; 3; 4; 5]%float.
Proof. reflexivity. Qed.

Example split_bounds : Py.split "," "0.5,0.05" = ["0.5"; "0.05"].
Proof. reflexivity. Qed.

Example split_empty : Py.split "," EmptyString = [EmptyString].
Proof. reflexivity. Qed.

(** One step of a successful run: the first block returned, and the rest of
    the resolver ran on its result. *)
Ltac ok_step H :=
  let a := fresh "v" in
  let o := fresh "out" in
  let Hb := fresh "Hblock" in
  apply bind_Ok in H as (a & o & Hb & H);
  try (apply lift_Ok in Hb as [Hb ->]).

Ltac ok_steps H := repeat ok_step H.

(** ** The shared blocks *)

Section BlockFacts.
Variable E : Env.

Lemma sorted_floats_Ok n msg s l :
  Block.sorted_floats E n msg s = Ok l -> sorted_from E n s l.
Proof.
  unfold Block.sorted_floats, sorted_from.
  destruct (Block.float_list E s) as [vals|e]; [|discriminate].
  cbv zeta. destruct (length (Py.sorted vals) =? n)%nat eqn:Hlen; [|discriminate].
  intros H. injection H as <-. exists vals. repeat split.
  apply Nat.eqb_eq in Hlen. now rewrite SortFacts.sorted_length in Hlen.
Qed.

Lemma sorted_floats_intro n msg s vals :
  Block.float_list E s = Ok vals -> length vals = n ->
  Block.sorted_floats E n msg s = Ok (Py.sorted vals).
Proof.
  unfold Block.sorted_floats. intros -> Hlen. cbv zeta.
  now rewrite SortFacts.sorted_length, Hlen, Nat.eqb_refl.
Qed.

Lemma sorted_floats_if_given_Ok n msg x r :
  Block.sorted_floats_if_given E n msg x = Ok r ->
  match x with
  | None => r = None
  | Some s => exists l, r = Some l /\ sorted_from E n s l
  end.
Proof.
  unfold Block.sorted_floats_if_given. destruct x as [s|].
  - destruct (Block.sorted_floats E n msg s) as [l|e] eqn:Hs; [|discriminate].
    intros H. injection H as <-. exists l. split; [reflexivity|].
    now apply sorted_floats_Ok in Hs.
  - intros H. now injection H as <-.
Qed.

Lemma sorted_floats_or_Ok default n msg x l :
  Block.sorted_floats_or E default n msg x = Ok l ->
  match x with
  | None => l = default
  | Some s => sorted_from E n s l
  end.
Proof.
  unfold Block.sorted_floats_or. destruct x as [s|].
  - apply sorted_floats_Ok.
  - intros H. now injection H as <-.
Qed.

End BlockFacts.

Lemma sorted_pair_ordered a b : ordered_pair (Py.sorted [a; b]).
Proof.
  rewrite SortFacts.sorted_pair. destruct (PyFloat.lt b a) eqn:Hba.
  - exists b, a. repeat split.
    + now apply FloatFacts.lt_asym.
    + intros _ _. now apply FloatFacts.lt_le.
  - exists a, b. repeat split; [assumption|].
    intros Ha Hb. now apply FloatFacts.not_lt_le.
Qed.

Lemma sorted_from_ordered E s l : sorted_from E 2 s l -> ordered_pair l.
Proof.
  intros (vals & _ & Hlen & ->).
  destruct vals as [|a [|b [|c rest]]]; try discriminate Hlen.
  apply sorted_pair_ordered.
Qed.

Lemma literal_pair_ordered a b :
  PyFloat.le a b = true -> ordered_pair [a; b].
Proof.
  intros Hab. exists a, b. repeat split.
  - now apply FloatFacts.le_not_lt.
  - intros _ _. exact Hab.
Qed.

(** ** The calc variant *)

Section CalcFacts.
Variable E : Env.

(** A run of [get_calc_options] that returns went through every block. *)
Lemma get_calc_options_Ok p args out o indb out' :
  Calc.get_calc_options E p args out = Ok (o, indb, out') ->
  exists startT endT auth dist pre_filt align dt_snr,
    Block.check_inputs E args = Ok indb /\
    Block.construct_time E "start" (Calc.Parsed.startT p) = Ok startT /\
    Block.construct_time E "end" (Calc.Parsed.endT p) = Ok endT /\
    Calc.user_auth (Calc.Parsed.UserAuth p) = Ok auth /\
    Calc.check_distances (Calc.Parsed.phase p) (Calc.Parsed.mindist p)
      (Calc.Parsed.maxdist p) = Ok dist /\
    Block.sorted_floats_if_given E 2
      "Error: --pre-filt should contain 2 comma-separated floats"
      (Calc.Parsed.pre_filt p) = Ok pre_filt /\
    Block.alignment (Calc.Parsed.align p) = Ok align /\
    Calc.snr_window (Calc.Parsed.dt_snr p) (Calc.Parsed.dts p) out
      = Ok (dt_snr, out') /\
    Block.check_method (Calc.Parsed.method p) = Ok tt /\
    Calc.mindist o = fst dist /\ Calc.maxdist o = snd dist /\
    Calc.pre_filt o = pre_filt /\ Calc.dt_snr o = dt_snr /\
    Calc.dts o = Calc.Parsed.dts p /\ Calc.phase o = Calc.Parsed.phase p.
Proof.
  unfold Calc.get_calc_options. intros H. ok_steps H.
  repeat match goal with u : unit |- _ => destruct u end.
  injection H as <- <- <-.
  do 7 eexists. repeat split; try eassumption; reflexivity.
Qed.


(** What one branch of the distance block lets through: values that are
    not below [lo] and not above [hi], each one the parsed value or, when
    that is [None] or zero, the default. *)
Lemma distance_branch_Ok lo hi msg mindist maxdist dist :
  Calc.distance_branch lo hi msg mindist maxdist = Ok dist ->
  exists low high,
    dist = (Some low, Some high) /\
    PyFloat.lt low lo = false /\ PyFloat.gt high hi = false /\
    low = (if Py.truthy_opt mindist
           then match mindist with Some x => x | None => lo end else lo) /\
    high = (if Py.truthy_opt maxdist
            then match maxdist with Some x => x | None => hi end else hi).
Proof.
  unfold Calc.distance_branch. cbv zeta.
  destruct (Py.truthy_opt mindist), (Py.truthy_opt maxdist); simpl;
    match goal with
    | |- context [PyFloat.lt ?a lo || PyFloat.gt ?b hi] =>
        destruct (PyFloat.lt a lo) eqn:Hlo; [discriminate|];
        destruct (PyFloat.gt b hi) eqn:Hhi; [discriminate|];
        simpl; intros H; injection H as <-;
        exists a, b; repeat split; assumption
    end.
Qed.

Lemma check_distances_Ok phase mindist maxdist dist :
  Calc.check_distances phase mindist maxdist = Ok dist ->
  exists lo hi low high,
    In (phase, (lo, hi)) phase_ranges /\
    dist = (Some low, Some high) /\
    PyFloat.lt low lo = false /\ PyFloat.gt high hi = false.
Proof.
  unfold Calc.check_distances, phase_ranges.
  destruct (Py.mem phase ["P"; "PP"; "S"; "SKS"]) eqn:Hmem; [|discriminate].
  simpl negb. cbv iota.
  destruct (String.eqb phase "P") eqn:HP;
    [|destruct (String.eqb phase "PP") eqn:HPP;
      [|destruct (String.eqb phase "S") eqn:HS;
        [|destruct (String.eqb phase "SKS") eqn:HSKS]]].
  5: { unfold Py.mem in Hmem. simpl in Hmem.
       rewrite HP, HPP, HS, HSKS in Hmem. discriminate. }
  all: intros H; apply distance_branch_Ok in H
         as (low & high & -> & Hlo & Hhi & _);
       match goal with
       | Heq : String.eqb ?ph _ = true |- _ => apply String.eqb_eq in Heq; subst ph
       end.
  - exists 30%float, 100%float, low, high. simpl. auto.
  - exists 100%float, 180%float, low, high. simpl. auto 6.
  - exists 55%float, 85%float, low, high. simpl. auto 7.
  - exists 85%float, 115%float, low, high. simpl. auto 8.
Qed.

End CalcFacts.

Section CalcClaims.
Variable E : Env.

(** C9.  In the calc variant, when the phase is P and neither [--mindist]
    nor [--maxdist] is given, the distance block returns the bounds
    (30., 100.) and they are the bounds of every run that returns; when the
    phase is SKS they are (85., 115.). *)
Theorem calc_default_distance_bounds p args out :
  Calc.Parsed.mindist p = None -> Calc.Parsed.maxdist p = None ->
  (Calc.Parsed.phase p = "P" ->
     Calc.check_distances (Calc.Parsed.phase p) (Calc.Parsed.mindist p)
       (Calc.Parsed.maxdist p) = Ok (Some 30%float, Some 100%float) /\
     forall o indb out',
       Calc.get_calc_options E p args out = Ok (o, indb, out') ->
       Calc.mindist o = Some 30%float /\ Calc.maxdist o = Some 100%float) /\
  (Calc.Parsed.phase p = "SKS" ->
     Calc.check_distances (Calc.Parsed.phase p) (Calc.Parsed.mindist p)
       (Calc.Parsed.maxdist p) = Ok (Some 85%float, Some 115%float) /\
     forall o indb out',
       Calc.get_calc_options E p args out = Ok (o, indb, out') ->
       Calc.mindist o = Some 85%float /\ Calc.maxdist o = Some 115%float).
Proof.
  intros Hmin Hmax.
  split; intros Hphase;
    (split;
     [ rewrite Hphase, Hmin, Hmax; reflexivity
     | intros o indb out' Hrun;
       apply get_calc_options_Ok in Hrun
         as (? & ? & ? & dist & ? & ? & ? & _ & _ & _ & _ & Hdist & _ & _ & _ & _
             & Hlow & Hhigh & _);
       rewrite Hphase, Hmin, Hmax in Hdist;
       injection Hdist as <-;
       rewrite Hlow, Hhigh; split; reflexivity ]).
Qed.

(** The distance block is the check of the phase name followed by the
    branch of that phase. *)
Lemma check_distances_dispatch phase :
  (forall mindist maxdist,
     Calc.check_distances phase mindist maxdist
     = parser_error "Error: choose between 'P', 'PP', 'S' and 'SKS'.") \/
  (exists lo hi msg,
     In (phase, (lo, hi)) phase_ranges /\
     forall mindist maxdist,
       Calc.check_distances phase mindist maxdist
       = Calc.distance_branch lo hi msg mindist maxdist).
Proof.
  unfold Calc.check_distances, phase_ranges.
  destruct (Py.mem phase ["P"; "PP"; "S"; "SKS"]) eqn:Hmem; [|now left].
  right. simpl negb. cbv iota.
  destruct (String.eqb phase "P") eqn:HP;
    [|destruct (String.eqb phase "PP") eqn:HPP;
      [|destruct (String.eqb phase "S") eqn:HS;
        [|destruct (String.eqb phase "SKS") eqn:HSKS]]].
  5: { unfold Py.mem in Hmem. simpl in Hmem.
       rewrite HP, HPP, HS, HSKS in Hmem. discriminate. }
  all: match goal with
       | Heq : String.eqb ?ph _ = true |- _ => apply String.eqb_eq in Heq; subst ph
       end;
       do 3 eexists; (split; [|intros; reflexivity]); simpl; auto 8.
Qed.

Lemma distance_branch_zero lo hi msg z other :
  (z =? 0)%float = true ->
  Calc.distance_branch lo hi msg (Some z) other
  = Calc.distance_branch lo hi msg None other /\
  Calc.distance_branch lo hi msg other (Some z)
  = Calc.distance_branch lo hi msg other None.
Proof.
  intros Hz. unfold Calc.distance_branch. simpl Py.truthy_opt.
  unfold PyFloat.truthy. rewrite Hz. split; reflexivity.
Qed.

(** What the distance block does with a bound equal to zero. *)
Lemma check_distances_zero phase z other :
  (z =? 0)%float = true ->
  Calc.check_distances phase (Some z) other = Calc.check_distances phase None other /\
  Calc.check_distances phase other (Some z) = Calc.check_distances phase other None.
Proof.
  intros Hz.
  destruct (check_distances_dispatch phase) as [Hbad|(lo & hi & msg & _ & Hbranch)].
  - now rewrite !Hbad.
  - rewrite !Hbranch. now apply distance_branch_zero.
Qed.

(** C10.  In the calc variant, whatever the phase, a [--mindist] or
    [--maxdist] equal to zero is treated as if the flag were absent: the
    resolver ends as it does without the flag, and the distance block puts
    the default bound of the phase in place of the zero instead of
    rejecting it. *)
Theorem calc_zero_distance_is_absent p args out z :
  (z =? 0)%float = true ->
  Calc.get_calc_options E (Calc.Parsed.with_mindist (Some z) p) args out
  = Calc.get_calc_options E (Calc.Parsed.with_mindist None p) args out /\
  Calc.get_calc_options E (Calc.Parsed.with_maxdist (Some z) p) args out
  = Calc.get_calc_options E (Calc.Parsed.with_maxdist None p) args out /\
  (forall phase lo hi,
     In (phase, (lo, hi)) phase_ranges ->
     Calc.check_distances phase (Some z) None = Ok (Some lo, Some hi) /\
     Calc.check_distances phase None (Some z) = Ok (Some lo, Some hi)).
Proof.
  intros Hz. repeat split.
  - unfold Calc.get_calc_options. simpl.
    now rewrite (proj1 (check_distances_zero _ z _ Hz)).
  - unfold Calc.get_calc_options. simpl.
    now rewrite (proj2 (check_distances_zero _ z _ Hz)).
  - rewrite (proj1 (check_distances_zero phase z None Hz)).
    unfold phase_ranges in H. simpl in H.
    destruct H as [H|[H|[H|[H|[]]]]]; injection H as <- <- <-; reflexivity.
  - rewrite (proj2 (check_distances_zero phase z None Hz)).
    unfold phase_ranges in H. simpl in H.
    destruct H as [H|[H|[H|[H|[]]]]]; injection H as <- <- <-; reflexivity.
Qed.



(** With phase P, [--mindist 20] is rejected with the range message,
    whatever [--maxdist] is. *)
Lemma calc_mindist_20_rejected maxdist :
  Calc.check_distances "P" (Some 20%float) maxdist
  = parser_error
      "Distances should be between 30 and 100 deg. for teleseismic 'P' waves.".
Proof. reflexivity. Qed.

End CalcClaims.

(** C2 fails on the code.  The branch of a phase tests only whether
    [mindist] is below the range and [maxdist] above it: with phase P,
    [--mindist 150 --maxdist 100] is a pair that does not lie within
    [30, 100] (150 is above 100), and the resolver returns it. *)
Theorem calc_distance_above_range_accepted :
  PyFloat.gt 150 100 = true /\
  exists o,
    Calc.get_calc_options Sample.env
      (Calc.Parsed.with_mindist (Some 150%float)
         (Calc.Parsed.with_maxdist (Some 100%float) Calc.Parsed.defaults))
      ["stations.pkl"] []
    = Ok (o, "stations.pkl", []) /\
    Calc.phase o = "P" /\
    Calc.mindist o = Some 150%float /\ Calc.maxdist o = Some 100%float.
Proof.
  split; [reflexivity|].
  eexists. split; [cbv; reflexivity|]. repeat split.
Qed.

Lemma calc_default_distance_bounds_witness :
  (exists o,
     Calc.get_calc_options Sample.env Calc.Parsed.defaults ["stations.pkl"] []
     = Ok (o, "stations.pkl", []) /\
     Calc.mindist o = Some 30%float /\ Calc.maxdist o = Some 100%float) /\
  (exists o,
     Calc.get_calc_options Sample.env
       (Calc.Parsed.with_phase "SKS" Calc.Parsed.defaults) ["stations.pkl"] []
     = Ok (o, "stations.pkl", []) /\
     Calc.mindist o = Some 85%float /\ Calc.maxdist o = Some 115%float).
Proof.
  split.
  - destruct (calc_default_distance_bounds Sample.env Calc.Parsed.defaults
                ["stations.pkl"] [] eq_refl eq_refl) as [HP _].
    destruct (HP eq_refl) as [_ Hrun].
    eexists. split; [cbv; reflexivity|]. eapply Hrun. cbv. reflexivity.
  - destruct (calc_default_distance_bounds Sample.env
                (Calc.Parsed.with_phase "SKS" Calc.Parsed.defaults)
                ["stations.pkl"] [] eq_refl eq_refl) as [_ HSKS].
    destruct (HSKS eq_refl) as [_ Hrun].
    eexists. split; [cbv; reflexivity|]. eapply Hrun. cbv. reflexivity.
Defined.

Lemma calc_zero_distance_is_absent_witness :
  Calc.get_calc_options Sample.env
    (Calc.Parsed.with_mindist (Some 0%float) Calc.Parsed.defaults)
    ["stations.pkl"] []
  = Calc.get_calc_options Sample.env
      (Calc.Parsed.with_mindist None Calc.Parsed.defaults) ["stations.pkl"] [] /\
  Calc.check_distances "P" (Some 0%float) None
  = Ok (Some 30%float, Some 100%float).
Proof.
  destruct (calc_zero_distance_is_absent Sample.env Calc.Parsed.defaults
              ["stations.pkl"] [] 0%float eq_refl) as (Hmin & _ & Hblock).
  split; [exact Hmin|].
  apply (Hblock "P" 30%float 100%float). simpl. auto.
Defined.


(** ** The other variants: what a run that returns went through *)

Section ReturningRuns.
Variable E : Env.

Lemma get_recalc_options_Ok p args out o indb out' :
  Recalc.get_recalc_options E p args out = Ok (o, indb, out') ->
  Block.check_inputs E args = Ok indb /\
  Block.list_phase (Some (Recalc.Parsed.phase p)) = Ok (Recalc.listphase o) /\
  Block.sorted_floats_if_given E 2
    "Error: --pre-filt should contain 2 comma-separated floats"
    (Recalc.Parsed.pre_filt p) = Ok (Recalc.pre_filt o) /\
  out' = out.
Proof.
  unfold Recalc.get_recalc_options. intros H. ok_steps H.
  injection H as <- <- <-. simpl. repeat split; assumption.
Qed.

Lemma get_hk_options_Ok p args out o indb out' :
  HK.get_hk_options E p args out = Ok (o, indb, out') ->
  Block.check_inputs E args = Ok indb /\
  Block.sorted_floats_or E [0.05; 0.5]%float 2
    "Error: --bp should contain 2 comma-separated floats"
    (HK.Parsed.bp p) = Ok (HK.bp o) /\
  Block.sorted_floats_or E [0.04; 0.08]%float 2
    "Error: --slowbound should contain 2 comma-separated floats"
    (HK.Parsed.slowbound p) = Ok (HK.slowbound o) /\
  Block.sorted_floats_or E [0.0; 360.0]%float 2
    "Error: --bazbound should contain 2 comma-separated floats"
    (HK.Parsed.bazbound p) = Ok (HK.bazbound o) /\
  HK.copy_band E (HK.Parsed.copy p) (HK.Parsed.bp_copy p) = Ok (HK.bp_copy o) /\
  Block.sorted_floats_or E [20; 50]%float 2
    "Error: --hbound should contain 2 comma-separated floats"
    (HK.Parsed.hbound p) = Ok (HK.hbound o) /\
  Block.sorted_floats_or E [1.56; 2.1]%float 2
    "Error: --kbound should contain 2 comma-separated floats"
    (HK.Parsed.kbound p) = Ok (HK.kbound o) /\
  Block.sorted_floats_or E [0.5; 2.0; -1.0]%float 3
    "Error: --weights should contain 3 comma-separated floats"
    (HK.Parsed.weights p) = Ok (HK.weights o) /\
  out' = out.
Proof.
  unfold HK.get_hk_options. intros H. ok_steps H.
  injection H as <- <- <-. simpl. repeat split; assumption.
Qed.

Lemma copy_band_Ok copy bp_copy r :
  HK.copy_band E copy bp_copy = Ok r ->
  if copy then
    exists l, r = Floats l /\
      Block.sorted_floats_or E [0.05; 0.35]%float 2
        "Error: --bp_copy should contain 2 comma-separated floats" bp_copy = Ok l
  else r = AsParsed bp_copy.
Proof.
  unfold HK.copy_band. destruct copy.
  - destruct (Block.sorted_floats_or _ _ _ _ _) as [l|e]; [|discriminate].
    intros H. injection H as <-. now exists l.
  - intros H. now injection H as <-.
Qed.

Lemma get_harmonics_options_Ok p args out o indb out' :
  Harmonics.get_harmonics_options E p args out = Ok (o, indb, out') ->
  exists az out1,
    Block.check_inputs E args = Ok indb /\
    Block.construct_time E "start" (Harmonics.Parsed.startT p)
      = Ok (Harmonics.startT o) /\
    Block.construct_time E "end" (Harmonics.Parsed.endT p)
      = Ok (Harmonics.endT o) /\
    Block.sorted_floats_or E [0.05; 0.5]%float 2
      "Error: --bp should contain 2 comma-separated floats"
      (Harmonics.Parsed.bp p) = Ok (Harmonics.bp o) /\
    Harmonics.azimuth (Harmonics.Parsed.azim p) (Harmonics.Parsed.find_azim p) out
      = Ok (az, out1) /\
    Harmonics.time_range E (snd az) (Harmonics.Parsed.trange p) out1
      = Ok (Harmonics.trange o, out') /\
    Harmonics.azim o = fst az /\ Harmonics.find_azim o = snd az.
Proof.
  unfold Harmonics.get_harmonics_options. intros H. ok_steps H.
  injection H as <- <- <-. simpl. do 2 eexists.
  repeat split; eassumption.
Qed.

Lemma time_range_Ok find_azim trange out r out' :
  Harmonics.time_range E find_azim trange out = Ok (r, out') ->
  if find_azim then
    match trange with
    | None => r = Floats [0; 10]%float /\ out' = out
    | Some s =>
        exists l, r = Floats l /\ sorted_from E 2 s l /\
                  out' = out ++ [ListRepr (Py.split "," s)]
    end
  else r = AsParsed trange /\ out' = out.
Proof.
  unfold Harmonics.time_range. destruct find_azim.
  - destruct trange as [s|].
    + intros H. ok_steps H. injection H as <- <-.
      unfold print_list in Hblock. injection Hblock as <-.
      apply sorted_floats_Ok in Hblock0. eauto.
    + intros H. injection H as <- <-. now split.
  - intros H. injection H as <- <-. now split.
Qed.

Lemma get_plot_options_Ok p args out o indb out' :
  Plot.get_plot_options E p args out = Ok (o, indb, out') ->
  Block.check_inputs E args = Ok indb /\
  Block.sorted_floats_or E [0.04; 0.08]%float 2
    "Error: --slowbound should contain 2 comma-separated floats"
    (Plot.Parsed.slowbound p) = Ok (Plot.slowbound o) /\
  Block.sorted_floats_or E [0.0; 360.0]%float 2
    "Error: --bazbound should contain 2 comma-separated floats"
    (Plot.Parsed.bazbound p) = Ok (Plot.bazbound o) /\
  Block.list_phase (Plot.Parsed.phase p) = Ok (Plot.listphase o) /\
  Block.sorted_floats_if_given E 2
    "Error: --bp should contain 2 comma-separated floats"
    (Plot.Parsed.bp p) = Ok (Plot.bp o) /\
  Block.sorted_floats_if_given E 2
    "Error: --trange should contain 2 comma-separated floats"
    (Plot.Parsed.trange p) = Ok (Plot.trange o) /\
  Plot.check_bins (Plot.Parsed.nbaz p) (Plot.Parsed.nslow p) = Ok tt /\
  Plot.phase o = Plot.Parsed.phase p /\ out' = out.
Proof.
  unfold Plot.get_plot_options. intros H. ok_steps H.
  repeat match goal with u : unit |- _ => destruct u end.
  injection H as <- <- <-. simpl. repeat split; assumption.
Qed.

(** When every block passes, the plot resolver returns. *)
Lemma get_plot_options_intro p args out indb slowbound bazbound listphase bp
  trange :
  Block.check_inputs E args = Ok indb ->
  Block.sorted_floats_or E [0.04; 0.08]%float 2
    "Error: --slowbound should contain 2 comma-separated floats"
    (Plot.Parsed.slowbound p) = Ok slowbound ->
  Block.sorted_floats_or E [0.0; 360.0]%float 2
    "Error: --bazbound should contain 2 comma-separated floats"
    (Plot.Parsed.bazbound p) = Ok bazbound ->
  Block.list_phase (Plot.Parsed.phase p) = Ok listphase ->
  Block.sorted_floats_if_given E 2
    "Error: --bp should contain 2 comma-separated floats"
    (Plot.Parsed.bp p) = Ok bp ->
  Block.sorted_floats_if_given E 2
    "Error: --trange should contain 2 comma-separated floats"
    (Plot.Parsed.trange p) = Ok trange ->
  Plot.check_bins (Plot.Parsed.nbaz p) (Plot.Parsed.nslow p) = Ok tt ->
  Plot.get_plot_options E p args out
  = Ok ({| Plot.stkeys := Block.station_keys (Plot.Parsed.stkeys p);
           Plot.slowbound := slowbound; Plot.bazbound := bazbound;
           Plot.phase := Plot.Parsed.phase p; Plot.listphase := listphase;
           Plot.bp := bp; Plot.trange := trange;
           Plot.tmin := match Plot.Parsed.trange p with
                        | None => Some 0%float
                        | Some _ => None
                        end;
           Plot.tmax := match Plot.Parsed.trange p with
                        | None => Some 30%float
                        | Some _ => None
                        end;
           Plot.nbaz := Plot.Parsed.nbaz p; Plot.nslow := Plot.Parsed.nslow p |},
        indb, out).
Proof.
  intros H1 H2 H3 H4 H5 H6 H7. unfold Plot.get_plot_options, bind.
  rewrite H1, H2, H3, H4, H5. simpl. rewrite H6. simpl. rewrite H7.
  reflexivity.
Qed.

(** The phase block lets through the six names only. *)
Lemma list_phase_Ok phase l :
  Block.list_phase phase = Ok l ->
  exists name, phase = Some name /\
               In name ["P"; "PP"; "allP"; "S"; "SKS"; "allS"].
Proof.
  unfold Block.list_phase. destruct phase as [name|]; [|discriminate].
  destruct (Py.mem name _) eqn:Hmem; [|discriminate].
  intros _. exists name. split; [reflexivity|].
  unfold Py.mem in Hmem. apply existsb_exists in Hmem as (x & Hin & Heq).
  apply String.eqb_eq in Heq. now subst x.
Qed.

End ReturningRuns.

(** ** The CCP, harmonics and plot variants *)

Section FlagClaims.
Variable E : Env.

(** C8.  In the CCP variant, when none of [--load], [--prep],
    [--prestack], [--ccp], [--gccp] is set, the resolver ends in
    [parser.error]: with the message of the step flags once the check of the
    positional argument has passed, with the message of that check
    otherwise. *)
Theorem ccp_needs_a_step p args out :
  CCP.Parsed.load p = false -> CCP.Parsed.prep p = false ->
  CCP.Parsed.prestack p = false -> CCP.Parsed.ccp p = false ->
  CCP.Parsed.gccp p = false ->
  (exists msg, CCP.get_ccp_options E p args out = Fail (ParserError msg)) /\
  (forall indb,
     Block.check_inputs E args = Ok indb ->
     CCP.get_ccp_options E p args out
     = Fail (ParserError
               "Error: needs at least one CCP Setting (--load, --prep, --prestack, --ccp or --gccp")).
Proof.
  intros Hload Hprep Hpre Hccp Hgccp.
  assert (Hrun : forall indb, Block.check_inputs E args = Ok indb ->
            CCP.get_ccp_options E p args out
            = Fail (ParserError
                      "Error: needs at least one CCP Setting (--load, --prep, --prestack, --ccp or --gccp")).
  { intros indb Hin. unfold CCP.get_ccp_options, bind.
    rewrite Hin, Hload, Hprep, Hpre, Hccp, Hgccp. simpl.
    unfold CCP.coordinate.
    destruct (CCP.Parsed.coord_start p), (CCP.Parsed.coord_end p); reflexivity. }
  split; [|exact Hrun].
  destruct (Block.check_inputs E args) as [indb|e] eqn:Hin.
  - eexists. now apply (Hrun indb).
  - unfold CCP.get_ccp_options, bind. rewrite Hin. simpl.
    unfold Block.check_inputs in Hin.
    destruct args as [|indb [|more rest]];
      try (injection Hin as <-; eexists; reflexivity).
    destruct (negb (exist E indb)); [|discriminate].
    injection Hin as <-. eexists. reflexivity.
Qed.



(** The plot resolver fails as soon as the check of the bins does. *)
Lemma get_plot_options_bins p args out e :
  Plot.check_bins (Plot.Parsed.nbaz p) (Plot.Parsed.nslow p) = Fail e ->
  exists e', Plot.get_plot_options E p args out = Fail e'.
Proof.
  intros Hbins.
  destruct (Plot.get_plot_options E p args out) as [[[o indb] out']|e'] eqn:Hrun.
  - apply get_plot_options_Ok in Hrun as (_ & _ & _ & _ & _ & _ & Hok & _).
    rewrite Hbins in Hok. discriminate.
  - now exists e'.
Qed.

(** C4, as the code has it.  In the plot variant the resolver fails when
    both [--nbaz] and [--nslow] are set and when neither is; when exactly
    one is set it returns whenever the other blocks (the positional
    argument, [--slowbound], [--bazbound], [--phase], [--bp], [--trange])
    pass. *)
Theorem plot_bin_flags p args out :
  (forall nbaz nslow,
     Plot.Parsed.nbaz p = Some nbaz -> Plot.Parsed.nslow p = Some nslow ->
     exists e, Plot.get_plot_options E p args out = Fail e) /\
  (Plot.Parsed.nbaz p = None -> Plot.Parsed.nslow p = None ->
   exists e, Plot.get_plot_options E p args out = Fail e) /\
  (forall n indb slowbound bazbound listphase bp trange,
     (Plot.Parsed.nbaz p = Some n /\ Plot.Parsed.nslow p = None) \/
     (Plot.Parsed.nbaz p = None /\ Plot.Parsed.nslow p = Some n) ->
     Block.check_inputs E args = Ok indb ->
     Block.sorted_floats_or E [0.04; 0.08]%float 2
       "Error: --slowbound should contain 2 comma-separated floats"
       (Plot.Parsed.slowbound p) = Ok slowbound ->
     Block.sorted_floats_or E [0.0; 360.0]%float 2
       "Error: --bazbound should contain 2 comma-separated floats"
       (Plot.Parsed.bazbound p) = Ok bazbound ->
     Block.list_phase (Plot.Parsed.phase p) = Ok listphase ->
     Block.sorted_floats_if_given E 2
       "Error: --bp should contain 2 comma-separated floats"
       (Plot.Parsed.bp p) = Ok bp ->
     Block.sorted_floats_if_given E 2
       "Error: --trange should contain 2 comma-separated floats"
       (Plot.Parsed.trange p) = Ok trange ->
     exists o,
       Plot.get_plot_options E p args out = Ok (o, indb, out) /\
       Plot.nbaz o = Plot.Parsed.nbaz p /\ Plot.nslow o = Plot.Parsed.nslow p).
Proof.
  split; [|split].
  - intros nbaz nslow Hb Hs.
    apply (get_plot_options_bins p args out
             (ParserError "Specify only one of --nbaz or --nslow")).
    now rewrite Hb, Hs.
  - intros Hb Hs.
    apply (get_plot_options_bins p args out
             (ParserError "Specify at least one of --nbaz or --nslow")).
    now rewrite Hb, Hs.
  - intros n indb slowbound bazbound listphase bp trange Hone H1 H2 H3 H4 H5 H6.
    assert (Hbins : Plot.check_bins (Plot.Parsed.nbaz p) (Plot.Parsed.nslow p)
                    = Ok tt).
    { destruct Hone as [[-> ->]|[-> ->]]; reflexivity. }
    eexists. split.
    + exact (get_plot_options_intro E p args out _ _ _ _ _ _ H1 H2 H3 H4 H5 H6 Hbins).
    + split; reflexivity.
Qed.

(** C5.  In the plot variant the default of [--phase] is [None].  While
    the attribute is [None] the resolver never returns, and once the blocks
    before the phase block have passed it ends with the message that lists
    the six phase names; a run that returns was given one of the six
    names. *)
Theorem plot_phase_must_be_given p args out :
  Plot.Parsed.phase Plot.Parsed.defaults = None /\
  (Plot.Parsed.phase p = None ->
   (exists e, Plot.get_plot_options E p args out = Fail e) /\
   (forall indb slowbound bazbound,
      Block.check_inputs E args = Ok indb ->
      Block.sorted_floats_or E [0.04; 0.08]%float 2
        "Error: --slowbound should contain 2 comma-separated floats"
        (Plot.Parsed.slowbound p) = Ok slowbound ->
      Block.sorted_floats_or E [0.0; 360.0]%float 2
        "Error: --bazbound should contain 2 comma-separated floats"
        (Plot.Parsed.bazbound p) = Ok bazbound ->
      Plot.get_plot_options E p args out
      = Fail (ParserError
                "Error: choose between 'P', 'PP', 'allP', 'S', 'SKS' and 'allS'."))) /\
  (forall o indb out',
     Plot.get_plot_options E p args out = Ok (o, indb, out') ->
     exists name,
       Plot.Parsed.phase p = Some name /\
       In name ["P"; "PP"; "allP"; "S"; "SKS"; "allS"]).
Proof.
  split; [reflexivity|]. split.
  - intros Hphase. split.
    + destruct (Plot.get_plot_options E p args out) as [[[o indb] out']|e] eqn:Hrun.
      * apply get_plot_options_Ok in Hrun as (_ & _ & _ & Hlist & _).
        rewrite Hphase in Hlist. discriminate.
      * now exists e.
    + intros indb slowbound bazbound H1 H2 H3.
      unfold Plot.get_plot_options, bind. rewrite H1, H2, H3, Hphase.
      reflexivity.
  - intros o indb out' Hrun.
    apply get_plot_options_Ok in Hrun as (_ & _ & _ & Hlist & _).
    now apply list_phase_Ok in Hlist.
Qed.

End FlagClaims.

(** ** The list options *)

Section ListClaims.
Variable E : Env.

Lemma sorted_floats_or_ordered default msg x l :
  ordered_pair default ->
  Block.sorted_floats_or E default 2 msg x = Ok l -> ordered_pair l.
Proof.
  intros Hdefault H. apply sorted_floats_or_Ok in H.
  destruct x as [s|]; [now apply sorted_from_ordered in H | now subst l].
Qed.

Lemma sorted_floats_if_given_ordered msg x l :
  Block.sorted_floats_if_given E 2 msg x = Ok (Some l) -> ordered_pair l.
Proof.
  intros H. apply sorted_floats_if_given_Ok in H. destruct x as [s|].
  - destruct H as (l' & Heq & Hs). injection Heq as ->.
    now apply sorted_from_ordered in Hs.
  - discriminate.
Qed.

Lemma sorted_floats_if_given_from n msg x r s :
  Block.sorted_floats_if_given E n msg x = Ok r -> x = Some s ->
  exists l, r = Some l /\ sorted_from E n s l.
Proof.
  intros H ->. now apply sorted_floats_if_given_Ok in H.
Qed.

Lemma sorted_floats_or_from default n msg x l s :
  Block.sorted_floats_or E default n msg x = Ok l -> x = Some s ->
  sorted_from E n s l.
Proof.
  intros H ->. now apply sorted_floats_or_Ok in H.
Qed.

(** C3, as the code has it.  Every list option of floats that the user
    gives and the resolver reads (the bound pairs [--pre-filt], [--bp],
    [--slowbound], [--bazbound], [--bp-copy], [--hbound], [--kbound],
    [--trange] and the triple [--weights]) resolves to [sorted] of the
    values read from the string, of the declared length.  [sorted] gives a
    permutation of the values, in ascending order whenever none of them is
    NaN; a pair given as [a,b] with [a > b] comes back as
    [(min(a,b), max(a,b))], and weights without a NaN come back ordered by
    value, not by phase. *)
Theorem float_list_options_are_sorted :
  (forall p args out o indb out' s,
     Calc.get_calc_options E p args out = Ok (o, indb, out') ->
     Calc.Parsed.pre_filt p = Some s ->
     exists l, Calc.pre_filt o = Some l /\ sorted_from E 2 s l) /\
  (forall p args out o indb out' s,
     Recalc.get_recalc_options E p args out = Ok (o, indb, out') ->
     Recalc.Parsed.pre_filt p = Some s ->
     exists l, Recalc.pre_filt o = Some l /\ sorted_from E 2 s l) /\
  (forall p args out o indb out',
     HK.get_hk_options E p args out = Ok (o, indb, out') ->
     (forall s, HK.Parsed.bp p = Some s -> sorted_from E 2 s (HK.bp o)) /\
     (forall s, HK.Parsed.slowbound p = Some s ->
                sorted_from E 2 s (HK.slowbound o)) /\
     (forall s, HK.Parsed.bazbound p = Some s ->
                sorted_from E 2 s (HK.bazbound o)) /\
     (forall s, HK.Parsed.copy p = true -> HK.Parsed.bp_copy p = Some s ->
                exists l, HK.bp_copy o = Floats l /\ sorted_from E 2 s l) /\
     (forall s, HK.Parsed.hbound p = Some s -> sorted_from E 2 s (HK.hbound o)) /\
     (forall s, HK.Parsed.kbound p = Some s -> sorted_from E 2 s (HK.kbound o)) /\
     (forall s, HK.Parsed.weights p = Some s ->
                sorted_from E 3 s (HK.weights o))) /\
  (forall p args out o indb out',
     Harmonics.get_harmonics_options E p args out = Ok (o, indb, out') ->
     (forall s, Harmonics.Parsed.bp p = Some s ->
                sorted_from E 2 s (Harmonics.bp o)) /\
     (forall s, Harmonics.find_azim o = true ->
                Harmonics.Parsed.trange p = Some s ->
                exists l, Harmonics.trange o = Floats l /\ sorted_from E 2 s l)) /\
  (forall p args out o indb out',
     Plot.get_plot_options E p args out = Ok (o, indb, out') ->
     (forall s, Plot.Parsed.slowbound p = Some s ->
                sorted_from E 2 s (Plot.slowbound o)) /\
     (forall s, Plot.Parsed.bazbound p = Some s ->
                sorted_from E 2 s (Plot.bazbound o)) /\
     (forall s, Plot.Parsed.bp p = Some s ->
                exists l, Plot.bp o = Some l /\ sorted_from E 2 s l) /\
     (forall s, Plot.Parsed.trange p = Some s ->
                exists l, Plot.trange o = Some l /\ sorted_from E 2 s l)) /\
  (forall vals,
     Permutation vals (Py.sorted vals) /\
     (Py.nan_free vals = true -> Py.ascending (Py.sorted vals) = true)) /\
  (forall a b,
     PyFloat.gt a b = true ->
     Py.sorted [a; b] = [PyFloat.min a b; PyFloat.max a b]).
Proof.
  repeat apply conj.
  - intros p args out o indb out' s Hrun Hs.
    apply get_calc_options_Ok in Hrun
      as (? & ? & ? & ? & pf & ? & ? & _ & _ & _ & _ & _ & Hpf & _ & _ & _ & _
          & _ & Ho & _).
    rewrite Ho. eapply sorted_floats_if_given_from; eassumption.
  - intros p args out o indb out' s Hrun Hs.
    apply get_recalc_options_Ok in Hrun as (_ & _ & Hpf & _).
    eapply sorted_floats_if_given_from; eassumption.
  - intros p args out o indb out' Hrun.
    apply get_hk_options_Ok in Hrun
      as (_ & Hbp & Hslow & Hbaz & Hcopy & Hh & Hk & Hw & _).
    repeat apply conj; intros s;
      try (intros Hs; eapply sorted_floats_or_from; eassumption).
    intros Hc Hs. apply copy_band_Ok in Hcopy. rewrite Hc in Hcopy.
    destruct Hcopy as (l & -> & Hl). exists l. split; [reflexivity|].
    eapply sorted_floats_or_from; eassumption.
  - intros p args out o indb out' Hrun.
    apply get_harmonics_options_Ok in Hrun
      as (az & out1 & _ & _ & _ & Hbp & _ & Htr & _ & Hf).
    split; intros s.
    + intros Hs. eapply sorted_floats_or_from; eassumption.
    + intros Hfind Hs. apply time_range_Ok in Htr.
      rewrite <- Hf, Hfind, Hs in Htr.
      destruct Htr as (l & -> & Hl & _). now exists l.
  - intros p args out o indb out' Hrun.
    apply get_plot_options_Ok in Hrun
      as (_ & Hslow & Hbaz & _ & Hbp & Htr & _).
    repeat apply conj; intros s Hs;
      try (eapply sorted_floats_or_from; eassumption);
      eapply sorted_floats_if_given_from; eassumption.
  - intros vals. split; [apply SortFacts.sorted_perm | apply SortFacts.sorted_ascending].
  - apply SortFacts.sorted_pair_min_max.
Qed.

(** C1, as the code has it.  Whenever a resolver returns, every bound pair
    it sorts or fills with a default ([pre_filt], [bp], [slowbound],
    [bazbound], [bp_copy], [hbound], [kbound], [trange]) is a list
    [[low, high]] whose second value is not below the first, so that
    [low <= high] unless one of them is NaN.  The distances of the calc
    variant are not put in order: [mindist] is not below the range of the
    phase and [maxdist] not above it, and nothing relates the two. *)
Theorem bound_pairs_are_ordered :
  (forall p args out o indb out',
     Calc.get_calc_options E p args out = Ok (o, indb, out') ->
     (forall l, Calc.pre_filt o = Some l -> ordered_pair l) /\
     (exists lo hi low high,
        In (Calc.phase o, (lo, hi)) phase_ranges /\
        Calc.mindist o = Some low /\ Calc.maxdist o = Some high /\
        PyFloat.lt low lo = false /\ PyFloat.gt high hi = false)) /\
  (forall p args out o indb out',
     Recalc.get_recalc_options E p args out = Ok (o, indb, out') ->
     forall l, Recalc.pre_filt o = Some l -> ordered_pair l) /\
  (forall p args out o indb out',
     HK.get_hk_options E p args out = Ok (o, indb, out') ->
     ordered_pair (HK.bp o) /\ ordered_pair (HK.slowbound o) /\
     ordered_pair (HK.bazbound o) /\ ordered_pair (HK.hbound o) /\
     ordered_pair (HK.kbound o) /\
     (forall l, HK.bp_copy o = Floats l -> ordered_pair l)) /\
  (forall p args out o indb out',
     Harmonics.get_harmonics_options E p args out = Ok (o, indb, out') ->
     ordered_pair (Harmonics.bp o) /\
     (forall l, Harmonics.trange o = Floats l -> ordered_pair l)) /\
  (forall p args out o indb out',
     Plot.get_plot_options E p args out = Ok (o, indb, out') ->
     ordered_pair (Plot.slowbound o) /\ ordered_pair (Plot.bazbound o) /\
     (forall l, Plot.bp o = Some l -> ordered_pair l) /\
     (forall l, Plot.trange o = Some l -> ordered_pair l)).
Proof.
  repeat apply conj.
  - intros p args out o indb out' Hrun.
    apply get_calc_options_Ok in Hrun
      as (? & ? & ? & dist & pf & ? & ? & _ & _ & _ & _ & Hdist & Hpf & _ & _ & _
          & Hlow & Hhigh & Ho & _ & _ & Hphase).
    split.
    + intros l Hl. rewrite Ho in Hl. rewrite Hl in Hpf.
      now apply sorted_floats_if_given_ordered in Hpf.
    + apply check_distances_Ok in Hdist
        as (lo & hi & low & high & Hin & -> & Hlo & Hhi).
      exists lo, hi, low, high. rewrite Hphase. now repeat split.
  - intros p args out o indb out' Hrun l Hl.
    apply get_recalc_options_Ok in Hrun as (_ & _ & Hpf & _).
    rewrite Hl in Hpf. now apply sorted_floats_if_given_ordered in Hpf.
  - intros p args out o indb out' Hrun.
    apply get_hk_options_Ok in Hrun
      as (_ & Hbp & Hslow & Hbaz & Hcopy & Hh & Hk & _).
    repeat apply conj;
      try (eapply sorted_floats_or_ordered; [|eassumption];
           apply literal_pair_ordered; reflexivity).
    intros l Hl. apply copy_band_Ok in Hcopy.
    destruct (HK.Parsed.copy p).
    + destruct Hcopy as (l' & Heq & Hl'). rewrite Hl in Heq.
      injection Heq as <-.
      eapply sorted_floats_or_ordered; [|eassumption].
      apply literal_pair_ordered; reflexivity.
    + rewrite Hl in Hcopy. discriminate.
  - intros p args out o indb out' Hrun.
    apply get_harmonics_options_Ok in Hrun
      as (az & out1 & _ & _ & _ & Hbp & _ & Htr & _).
    split.
    + eapply sorted_floats_or_ordered; [|eassumption].
      apply literal_pair_ordered; reflexivity.
    + intros l Hl. apply time_range_Ok in Htr. rewrite Hl in Htr.
      destruct (snd az).
      * destruct (Harmonics.Parsed.trange p) as [s|].
        -- destruct Htr as (l' & Heq & Hs & _). injection Heq as <-.
           now apply sorted_from_ordered in Hs.
        -- destruct Htr as [Heq _]. injection Heq as ->.
           apply literal_pair_ordered; reflexivity.
      * destruct Htr as [Heq _]. discriminate.
  - intros p args out o indb out' Hrun.
    apply get_plot_options_Ok in Hrun
      as (_ & Hslow & Hbaz & _ & Hbp & Htr & _).
    repeat apply conj;
      try (eapply sorted_floats_or_ordered; [|eassumption];
           apply literal_pair_ordered; reflexivity).
    + intros l Hl. rewrite Hl in Hbp.
      now apply sorted_floats_if_given_ordered in Hbp.
    + intros l Hl. rewrite Hl in Htr.
      now apply sorted_floats_if_given_ordered in Htr.
Qed.

End ListClaims.

(** ** Runs in the sample world *)

(** C1 fails on the code: with [--mindist 90 --maxdist 40] the calc
    resolver returns the pair (90., 40.), and [90. <= 40.] is false. *)
Lemma calc_distance_pair_unordered :
  exists o,
    Calc.get_calc_options Sample.env calc_distances_90_40 ["stations.pkl"] []
    = Ok (o, "stations.pkl", []) /\
    Calc.mindist o = Some 90%float /\ Calc.maxdist o = Some 40%float /\
    PyFloat.le 90 40 = false.
Proof.
  eexists. split; [cbv; reflexivity|]. repeat split.
Qed.

Lemma bound_pairs_are_ordered_witness :
  exists o,
    HK.get_hk_options Sample.env hk_given_lists ["stations.pkl"] []
    = Ok (o, "stations.pkl", []) /\
    ordered_pair (HK.slowbound o) /\ ordered_pair (HK.bp o).
Proof.
  eexists. split; [cbv; reflexivity|].
  match goal with
  | |- ordered_pair (HK.slowbound ?o) /\ _ =>
      destruct (bound_pairs_are_ordered Sample.env) as (_ & _ & Hhk & _);
      destruct (Hhk hk_given_lists ["stations.pkl"] [] o "stations.pkl" []
                  ltac:(cbv; reflexivity)) as (Hbp & Hslow & _)
  end.
  split; assumption.
Defined.

(** C3 fails on the code when a value is NaN: with
    [--weights 2.0,nan,1.0] the resolver returns the triple as it was given,
    which is not in ascending order (2. stays before 1.), and with
    [--bp nan,1.0] it returns the pair [nan, 1.], not in ascending order
    either. *)
Lemma hk_lists_with_nan_not_ascending :
  exists o,
    HK.get_hk_options Sample.env_nan hk_nan_lists ["stations.pkl"] []
    = Ok (o, "stations.pkl", []) /\
    HK.weights o = [2; nan; 1]%float /\
    Py.ascending (HK.weights o) = false /\
    PyFloat.lt 1 2 = true /\
    HK.bp o = [nan; 1]%float /\
    Py.ascending (HK.bp o) = false.
Proof.
  eexists. split; [cbv; reflexivity|]. repeat split.
Qed.

Lemma float_list_options_are_sorted_witness :
  exists o,
    HK.get_hk_options Sample.env hk_given_lists ["stations.pkl"] []
    = Ok (o, "stations.pkl", []) /\
    sorted_from Sample.env 2 "0.5,0.05" (HK.bp o) /\
    HK.bp o = [0.05; 0.5]%float /\
    sorted_from Sample.env 3 "0.5,2.0,-1.0" (HK.weights o) /\
    HK.weights o = [-1.0; 0.5; 2.0]%float.
Proof.
  eexists. split; [cbv; reflexivity|].
  match goal with
  | |- sorted_from _ _ _ (HK.bp ?o) /\ _ =>
      destruct (float_list_options_are_sorted Sample.env)
        as (_ & _ & Hhk & _);
      destruct (Hhk hk_given_lists ["stations.pkl"] [] o "stations.pkl" []
                  ltac:(cbv; reflexivity)) as (Hbp & _ & _ & _ & _ & _ & Hw)
  end.
  split; [exact (Hbp _ eq_refl)|]. split; [reflexivity|].
  split; [exact (Hw _ eq_refl)|]. reflexivity.
Defined.

(** C4 fails on the code: with [--nbaz 36] alone and an existing
    database the resolver fails, in the phase block. *)
Lemma plot_one_bin_flag_alone_fails :
  Plot.Parsed.nbaz (plot_nbaz None) = Some 36%Z /\
  Plot.Parsed.nslow (plot_nbaz None) = None /\
  Plot.get_plot_options Sample.env (plot_nbaz None) ["stations.pkl"] []
  = Fail (ParserError
            "Error: choose between 'P', 'PP', 'allP', 'S', 'SKS' and 'allS'.").
Proof. repeat split. Qed.

Lemma plot_bin_flags_witness :
  exists o,
    Plot.get_plot_options Sample.env (plot_nbaz (Some "P")) ["stations.pkl"] []
    = Ok (o, "stations.pkl", []) /\
    Plot.nbaz o = Some 36%Z /\ Plot.nslow o = None.
Proof.
  destruct (plot_bin_flags Sample.env (plot_nbaz (Some "P")) ["stations.pkl"] [])
    as (_ & _ & Hone).
  apply (Hone 36%Z "stations.pkl" [0.04; 0.08]%float [0.0; 360.0]%float ["P"]
           None None);
    solve [reflexivity | left; split; reflexivity].
Defined.

Lemma plot_phase_must_be_given_witness :
  Plot.get_plot_options Sample.env Plot.Parsed.defaults ["stations.pkl"] []
  = Fail (ParserError
            "Error: choose between 'P', 'PP', 'allP', 'S', 'SKS' and 'allS'.").
Proof.
  destruct (plot_phase_must_be_given Sample.env Plot.Parsed.defaults
              ["stations.pkl"] []) as (_ & Hnone & _).
  destruct (Hnone eq_refl) as [_ Hmsg].
  apply (Hmsg "stations.pkl" [0.04; 0.08]%float [0.0; 360.0]%float);
    reflexivity.
Defined.


Lemma ccp_needs_a_step_witness :
  CCP.get_ccp_options Sample.env CCP.Parsed.defaults ["stations.pkl"] []
  = Fail (ParserError
            "Error: needs at least one CCP Setting (--load, --prep, --prestack, --ccp or --gccp").
Proof.
  destruct (ccp_needs_a_step Sample.env CCP.Parsed.defaults ["stations.pkl"] []
              eq_refl eq_refl eq_refl eq_refl eq_refl) as [_ Hmsg].
  apply (Hmsg "stations.pkl"). reflexivity.
Defined.

(** The end points of the CCP line are coordinates, not bounds: they are
    read like the pairs above and keep the order in which they are given. *)
Example ccp_coordinates_keep_order :
  exists o,
    CCP.get_ccp_options Sample.env ccp_load_line ["stations.pkl"] []
    = Ok (o, "stations.pkl", []) /\
    CCP.coord_start o = Floats [50.5; 10.5]%float /\
    CCP.coord_end o = Floats [40.5; 20.5]%float.
Proof.
  eexists. split; [cbv; reflexivity|]. split; reflexivity.
Qed.

(** * Further properties of the resolvers *)

(** ** Runs that return, block by block

    A run that returns passed every fallible block, and the attributes are
    what the blocks returned. *)

Section FullRuns.
Variable E : Env.

Lemma get_calc_options_run p args out o indb out' :
  Calc.get_calc_options E p args out = Ok (o, indb, out') ->
  exists startT endT auth dist pre_filt align dt_snr,
    Block.check_inputs E args = Ok indb /\
    Block.construct_time E "start" (Calc.Parsed.startT p) = Ok startT /\
    Block.construct_time E "end" (Calc.Parsed.endT p) = Ok endT /\
    Calc.user_auth (Calc.Parsed.UserAuth p) = Ok auth /\
    Calc.check_distances (Calc.Parsed.phase p) (Calc.Parsed.mindist p)
      (Calc.Parsed.maxdist p) = Ok dist /\
    Block.sorted_floats_if_given E 2
      "Error: --pre-filt should contain 2 comma-separated floats"
      (Calc.Parsed.pre_filt p) = Ok pre_filt /\
    Block.alignment (Calc.Parsed.align p) = Ok align /\
    Calc.snr_window (Calc.Parsed.dt_snr p) (Calc.Parsed.dts p) out
      = Ok (dt_snr, out') /\
    Block.check_method (Calc.Parsed.method p) = Ok tt /\
    o = {| Calc.stkeys := Block.station_keys (Calc.Parsed.stkeys p);
           Calc.startT := startT; Calc.endT := endT; Calc.UserAuth := auth;
           Calc.localdata := match Calc.Parsed.localdata p with
                             | Some s => Py.split "," s
                             | None => []
                             end;
           Calc.ndval := if Calc.Parsed.ndval p then 0%float else nan;
           Calc.phase := Calc.Parsed.phase p;
           Calc.mindist := fst dist; Calc.maxdist := snd dist;
           Calc.pre_filt := pre_filt; Calc.align := align;
           Calc.dt_snr := dt_snr; Calc.dts := Calc.Parsed.dts p;
           Calc.method := Calc.Parsed.method p |}.
Proof.
  unfold Calc.get_calc_options. intros H. ok_steps H.
  repeat match goal with u : unit |- _ => destruct u end.
  injection H as <- <- <-.
  do 7 eexists. repeat split; eassumption.
Qed.

Lemma get_recalc_options_run p args out o indb out' :
  Recalc.get_recalc_options E p args out = Ok (o, indb, out') ->
  exists listphase align pre_filt,
    Block.check_inputs E args = Ok indb /\
    Block.list_phase (Some (Recalc.Parsed.phase p)) = Ok listphase /\
    Block.alignment (Recalc.Parsed.align p) = Ok align /\
    Block.check_method (Recalc.Parsed.method p) = Ok tt /\
    Block.sorted_floats_if_given E 2
      "Error: --pre-filt should contain 2 comma-separated floats"
      (Recalc.Parsed.pre_filt p) = Ok pre_filt /\
    out' = out /\
    o = {| Recalc.stkeys := Block.station_keys (Recalc.Parsed.stkeys p);
           Recalc.phase := Recalc.Parsed.phase p;
           Recalc.listphase := listphase; Recalc.align := align;
           Recalc.method := Recalc.Parsed.method p;
           Recalc.pre_filt := pre_filt |}.
Proof.
  unfold Recalc.get_recalc_options. intros H. ok_steps H.
  repeat match goal with u : unit |- _ => destruct u end.
  injection H as <- <- <-.
  do 3 eexists. repeat split; eassumption.
Qed.

Lemma get_hk_options_run p args out o indb out' :
  HK.get_hk_options E p args out = Ok (o, indb, out') ->
  exists startT endT dipping,
    Block.check_inputs E args = Ok indb /\
    Block.construct_time E "start" (HK.Parsed.startT p) = Ok startT /\
    Block.construct_time E "end" (HK.Parsed.endT p) = Ok endT /\
    HK.dipping (HK.Parsed.strike p) (HK.Parsed.dip p) (HK.Parsed.nbaz p)
      = Ok dipping /\
    out' = out /\
    HK.stkeys o = Block.station_keys (HK.Parsed.stkeys p) /\
    HK.startT o = startT /\ HK.endT o = endT /\
    HK.strike o = HK.Parsed.strike p /\ HK.dip o = HK.Parsed.dip p /\
    HK.calc_dip o = fst dipping /\ HK.nbaz o = snd dipping /\
    HK.copy o = HK.Parsed.copy p.
Proof.
  unfold HK.get_hk_options. intros H. ok_steps H.
  injection H as <- <- <-.
  do 3 eexists. repeat split; eassumption.
Qed.

Lemma get_ccp_options_run p args out o indb out' :
  CCP.get_ccp_options E p args out = Ok (o, indb, out') ->
  exists coord_start coord_end stack,
    Block.check_inputs E args = Ok indb /\
    CCP.coordinate E "start" (CCP.Parsed.load p) (CCP.Parsed.coord_start p)
      = Ok coord_start /\
    CCP.coordinate E "end" (CCP.Parsed.load p) (CCP.Parsed.coord_end p)
      = Ok coord_end /\
    CCP.check_steps (CCP.Parsed.load p) (CCP.Parsed.prep p)
      (CCP.Parsed.prestack p) (CCP.Parsed.ccp p) (CCP.Parsed.gccp p) = Ok tt /\
    CCP.stacking (CCP.Parsed.ccp p) (CCP.Parsed.gccp p) (CCP.Parsed.linear p)
      (CCP.Parsed.phase p) = Ok stack /\
    CCP.warn_figure (CCP.Parsed.ccp p) (CCP.Parsed.gccp p)
      (CCP.Parsed.save_figure p) (CCP.Parsed.cbound p) (CCP.Parsed.fmt p)
      (CCP.Parsed.ccp_figure p) out = Ok (tt, out') /\
    CCP.check_figure (CCP.Parsed.ccp_figure p) (CCP.Parsed.ccp p)
      (CCP.Parsed.gccp p) = Ok tt /\
    o = {| CCP.stkeys := Block.station_keys (CCP.Parsed.stkeys p);
           CCP.coord_start := coord_start; CCP.coord_end := coord_end;
           CCP.load := CCP.Parsed.load p; CCP.prep := CCP.Parsed.prep p;
           CCP.prestack := CCP.Parsed.prestack p; CCP.ccp := CCP.Parsed.ccp p;
           CCP.gccp := CCP.Parsed.gccp p; CCP.linear := fst stack;
           CCP.phase := snd stack; CCP.ccp_figure := CCP.Parsed.ccp_figure p;
           CCP.cbound := CCP.colour_bound (CCP.Parsed.cbound p)
                           (CCP.Parsed.ccp p) (CCP.Parsed.gccp p);
           CCP.save_figure := CCP.Parsed.save_figure p;
           CCP.fmt := CCP.Parsed.fmt p |}.
Proof.
  unfold CCP.get_ccp_options. intros H. ok_steps H.
  repeat match goal with u : unit |- _ => destruct u end.
  injection H as <- <- <-.
  do 3 eexists. repeat split; eassumption.
Qed.

Lemma get_plot_options_run p args out o indb out' :
  Plot.get_plot_options E p args out = Ok (o, indb, out') ->
  Plot.stkeys o = Block.station_keys (Plot.Parsed.stkeys p) /\
  Plot.tmin o = match Plot.Parsed.trange p with
                | None => Some 0%float
                | Some _ => None
                end /\
  Plot.tmax o = match Plot.Parsed.trange p with
                | None => Some 30%float
                | Some _ => None
                end /\
  Plot.nbaz o = Plot.Parsed.nbaz p /\ Plot.nslow o = Plot.Parsed.nslow p.
Proof.
  unfold Plot.get_plot_options. intros H. ok_steps H.
  injection H as <- <- <-. repeat split.
Qed.

Lemma get_harmonics_options_keys p args out o indb out' :
  Harmonics.get_harmonics_options E p args out = Ok (o, indb, out') ->
  Harmonics.stkeys o = Block.station_keys (Harmonics.Parsed.stkeys p).
Proof.
  unfold Harmonics.get_harmonics_options. intros H. ok_steps H.
  injection H as <- <- <-. reflexivity.
Qed.

End FullRuns.

(** ** The positional argument *)

Section PositionalArgument.
Variable E : Env.

Lemma check_inputs_Ok args indb :
  Block.check_inputs E args = Ok indb -> args = [indb] /\ exist E indb = true.
Proof.
  unfold Block.check_inputs.
  destruct args as [|path [|more rest]]; try discriminate.
  destruct (exist E path) eqn:Hex; simpl; [|discriminate].
  intros H. injection H as <-. now split.
Qed.

Lemma check_inputs_count args :
  length args <> 1 ->
  Block.check_inputs E args = parser_error "Need station database file".
Proof.
  destruct args as [|path [|more rest]]; simpl; intros H;
    [reflexivity | now contradiction H | reflexivity].
Qed.

Lemma check_inputs_missing indb :
  exist E indb = false ->
  Block.check_inputs E [indb]
  = parser_error ("Input file " ++ indb ++ " does not exist").
Proof. intros H. unfold Block.check_inputs. now rewrite H. Qed.

(** X1.  Every resolver checks the positional argument before anything
    else: with a number of positional arguments other than one it ends with
    "Need station database file", with one path that does not exist it ends
    with "Input file ... does not exist", whatever the options are; and when
    it returns, the path it returns is the one positional argument, of a
    file that exists. *)
Theorem positional_argument_checked_first args out :
  (length args <> 1 ->
   (forall p, Calc.get_calc_options E p args out
              = Fail (ParserError "Need station database file")) /\
   (forall p, Recalc.get_recalc_options E p args out
              = Fail (ParserError "Need station database file")) /\
   (forall p, HK.get_hk_options E p args out
              = Fail (ParserError "Need station database file")) /\
   (forall p, Harmonics.get_harmonics_options E p args out
              = Fail (ParserError "Need station database file")) /\
   (forall p, CCP.get_ccp_options E p args out
              = Fail (ParserError "Need station database file")) /\
   (forall p, Plot.get_plot_options E p args out
              = Fail (ParserError "Need station database file"))) /\
  (forall indb,
     args = [indb] -> exist E indb = false ->
     (forall p, Calc.get_calc_options E p args out
                = Fail (ParserError ("Input file " ++ indb ++ " does not exist"))) /\
     (forall p, Recalc.get_recalc_options E p args out
                = Fail (ParserError ("Input file " ++ indb ++ " does not exist"))) /\
     (forall p, HK.get_hk_options E p args out
                = Fail (ParserError ("Input file " ++ indb ++ " does not exist"))) /\
     (forall p, Harmonics.get_harmonics_options E p args out
                = Fail (ParserError ("Input file " ++ indb ++ " does not exist"))) /\
     (forall p, CCP.get_ccp_options E p args out
                = Fail (ParserError ("Input file " ++ indb ++ " does not exist"))) /\
     (forall p, Plot.get_plot_options E p args out
                = Fail (ParserError ("Input file " ++ indb ++ " does not exist")))) /\
  (forall indb,
     (exists p o out', Calc.get_calc_options E p args out = Ok (o, indb, out')) \/
     (exists p o out', Recalc.get_recalc_options E p args out = Ok (o, indb, out')) \/
     (exists p o out', HK.get_hk_options E p args out = Ok (o, indb, out')) \/
     (exists p o out', Harmonics.get_harmonics_options E p args out
                       = Ok (o, indb, out')) \/
     (exists p o out', CCP.get_ccp_options E p args out = Ok (o, indb, out')) \/
     (exists p o out', Plot.get_plot_options E p args out = Ok (o, indb, out')) ->
     args = [indb] /\ exist E indb = true).
Proof.
  split; [|split].
  - intros Hlen. pose proof (check_inputs_count args Hlen) as Hin.
    repeat split; intros p;
      unfold Calc.get_calc_options, Recalc.get_recalc_options,
        HK.get_hk_options, Harmonics.get_harmonics_options,
        CCP.get_ccp_options, Plot.get_plot_options, bind;
      rewrite Hin; reflexivity.
  - intros indb -> Hex. pose proof (check_inputs_missing indb Hex) as Hin.
    repeat split; intros p;
      unfold Calc.get_calc_options, Recalc.get_recalc_options,
        HK.get_hk_options, Harmonics.get_harmonics_options,
        CCP.get_ccp_options, Plot.get_plot_options, bind;
      rewrite Hin; reflexivity.
  - intros indb Hrun. apply check_inputs_Ok.
    destruct Hrun as [(p & o & out' & H)|[(p & o & out' & H)|[(p & o & out' & H)
      |[(p & o & out' & H)|[(p & o & out' & H)|(p & o & out' & H)]]]]].
    + now apply get_calc_options_Ok in H as (? & ? & ? & ? & ? & ? & ? & H & _).
    + now apply get_recalc_options_Ok in H as (H & _).
    + now apply get_hk_options_Ok in H as (H & _).
    + now apply get_harmonics_options_Ok in H as (? & ? & H & _).
    + now apply get_ccp_options_run in H as (? & ? & ? & H & _).
    + now apply get_plot_options_Ok in H as (H & _).
Qed.

End PositionalArgument.

Lemma positional_argument_checked_first_witness :
  CCP.get_ccp_options Sample.env CCP.Parsed.defaults [] []
  = Fail (ParserError "Need station database file") /\
  HK.get_hk_options Sample.env HK.Parsed.defaults ["missing.pkl"] []
  = Fail (ParserError "Input file missing.pkl does not exist") /\
  exist Sample.env "stations.pkl" = true.
Proof.
  destruct (positional_argument_checked_first Sample.env [] [])
    as (Hcount & _ & _).
  destruct (Hcount ltac:(discriminate)) as (_ & _ & _ & _ & Hccp & _).
  destruct (positional_argument_checked_first Sample.env ["missing.pkl"] [])
    as (_ & Hmissing & _).
  destruct (Hmissing "missing.pkl" eq_refl eq_refl) as (_ & _ & Hhk & _).
  destruct (positional_argument_checked_first Sample.env ["stations.pkl"] [])
    as (_ & _ & Hret).
  split; [apply Hccp|]. split; [apply Hhk|].
  apply (Hret "stations.pkl"). right. right. left.
  exists HK.Parsed.defaults. eexists. exists []. cbv. reflexivity.
Defined.

(** ** Splitting on a separator *)

(** The number of occurrences of a character in a string. *)
Fixpoint count (c : ascii) (s : string) : nat :=
  match s with
  | EmptyString => 0
  | String d rest => (if Ascii.eqb d c then 1 else 0) + count c rest
  end.

Module SplitFacts.

(** Joining the pieces with the separator gives the string back. *)
Lemma concat_split sep s :
  String.concat (String sep EmptyString) (Py.split sep s) = s.
Proof.
  induction s as [|c rest IH]; [reflexivity|].
  simpl Py.split. destruct (Ascii.eqb c sep) eqn:Hc.
  - apply Ascii.eqb_eq in Hc. subst c.
    pose proof (SortFacts.split_nonempty sep rest) as Hne.
    destruct (Py.split sep rest) as [|piece pieces]; [now contradiction Hne|].
    simpl in *. now rewrite IH.
  - destruct (Py.split sep rest) as [|piece pieces].
    + simpl in *. now rewrite <- IH.
    + destruct pieces as [|next more]; simpl in *; now rewrite <- IH.
Qed.

(** There is one piece more than there are separators. *)
Lemma split_length sep s : length (Py.split sep s) = S (count sep s).
Proof.
  induction s as [|c rest IH]; [reflexivity|].
  simpl. destruct (Ascii.eqb c sep); simpl.
  - now rewrite IH.
  - pose proof (SortFacts.split_nonempty sep rest) as Hne.
    destruct (Py.split sep rest) as [|piece pieces]; [now contradiction Hne|].
    simpl in *. exact IH.
Qed.

(** No piece holds the separator. *)
Lemma split_pieces sep s :
  Forall (fun piece => count sep piece = 0) (Py.split sep s).
Proof.
  induction s as [|c rest IH]; [repeat constructor|].
  simpl. destruct (Ascii.eqb c sep) eqn:Hc.
  - constructor; [reflexivity|exact IH].
  - destruct (Py.split sep rest) as [|piece pieces].
    + repeat constructor. simpl. now rewrite Hc.
    + inversion IH as [|? ? Hpiece Hpieces]; subst.
      constructor; [|exact Hpieces]. simpl. now rewrite Hc, Hpiece.
Qed.

End SplitFacts.

Section KeysAndAuth.
Variable E : Env.

(** X2.  The station keys.  In every variant the attribute [stkeys] of a
    run that returns stays the empty string when [--keys] is empty, and is
    otherwise the list of the pieces between the commas: the list is not
    empty, no key holds a comma, and the keys joined by commas give the
    option back. *)
Theorem station_keys_split :
  (forall stkeys,
     match Block.station_keys stkeys with
     | inl s => stkeys = EmptyString /\ s = EmptyString
     | inr keys =>
         stkeys <> EmptyString /\ keys <> [] /\
         String.concat "," keys = stkeys /\
         length keys = S (count "," stkeys) /\
         Forall (fun key => count "," key = 0) keys
     end) /\
  (forall p args out o indb out',
     Calc.get_calc_options E p args out = Ok (o, indb, out') ->
     Calc.stkeys o = Block.station_keys (Calc.Parsed.stkeys p)) /\
  (forall p args out o indb out',
     Recalc.get_recalc_options E p args out = Ok (o, indb, out') ->
     Recalc.stkeys o = Block.station_keys (Recalc.Parsed.stkeys p)) /\
  (forall p args out o indb out',
     HK.get_hk_options E p args out = Ok (o, indb, out') ->
     HK.stkeys o = Block.station_keys (HK.Parsed.stkeys p)) /\
  (forall p args out o indb out',
     Harmonics.get_harmonics_options E p args out = Ok (o, indb, out') ->
     Harmonics.stkeys o = Block.station_keys (Harmonics.Parsed.stkeys p)) /\
  (forall p args out o indb out',
     CCP.get_ccp_options E p args out = Ok (o, indb, out') ->
     CCP.stkeys o = Block.station_keys (CCP.Parsed.stkeys p)) /\
  (forall p args out o indb out',
     Plot.get_plot_options E p args out = Ok (o, indb, out') ->
     Plot.stkeys o = Block.station_keys (Plot.Parsed.stkeys p)).
Proof.
  repeat apply conj.
  - intros stkeys. unfold Block.station_keys.
    destruct stkeys as [|c rest]; [now split|].
    cbn [String.length Nat.ltb Nat.leb].
    repeat split.
    + discriminate.
    + apply SortFacts.split_nonempty.
    + apply (SplitFacts.concat_split ","%char).
    + apply SplitFacts.split_length.
    + apply SplitFacts.split_pieces.
  - intros p args out o indb out' H.
    apply get_calc_options_run in H
      as (? & ? & ? & ? & ? & ? & ? & _ & _ & _ & _ & _ & _ & _ & _ & _ & ->).
    reflexivity.
  - intros p args out o indb out' H.
    apply get_recalc_options_run in H as (? & ? & ? & _ & _ & _ & _ & _ & _ & ->).
    reflexivity.
  - intros p args out o indb out' H.
    now apply get_hk_options_run in H as (? & ? & ? & _ & _ & _ & _ & _ & H & _).
  - intros p args out o indb out' H.
    now apply get_harmonics_options_keys in H.
  - intros p args out o indb out' H.
    apply get_ccp_options_run in H
      as (? & ? & ? & _ & _ & _ & _ & _ & _ & _ & ->).
    reflexivity.
  - intros p args out o indb out' H.
    now apply get_plot_options_run in H as (H & _).
Qed.

Lemma user_auth_Ok s auth :
  Calc.user_auth s = Ok auth ->
  (s = EmptyString /\ auth = []) \/
  (length (Py.split ":" s) = 2 /\ auth = Py.split ":" s).
Proof.
  unfold Calc.user_auth.
  destruct (negb (String.length s =? 0)%nat) eqn:Hne.
  - cbv zeta. destruct (length (Py.split ":" s) =? 2)%nat eqn:Hlen; simpl;
      [|discriminate].
    intros H. injection H as <-. right. split; [now apply Nat.eqb_eq|reflexivity].
  - intros H. injection H as <-. left. split; [|reflexivity].
    destruct s; [reflexivity|discriminate].
Qed.

(** X3.  The user name and password of the calc variant.  A run that
    returns has [UserAuth] empty when [--User-Auth] is empty, and otherwise
    a list [[user, password]] of two strings without a colon such that
    [user:password] is the option; an option with no colon or with more
    than one never lets the resolver return, and ends it with the message
    on user authentification once the blocks before have passed. *)
Theorem calc_user_auth p args out :
  (forall o indb out',
     Calc.get_calc_options E p args out = Ok (o, indb, out') ->
     (Calc.Parsed.UserAuth p = EmptyString /\ Calc.UserAuth o = []) \/
     (exists user password,
        Calc.UserAuth o = [user; password] /\
        Calc.Parsed.UserAuth p = (user ++ ":" ++ password)%string /\
        count ":" user = 0 /\ count ":" password = 0)) /\
  (Calc.Parsed.UserAuth p <> EmptyString ->
   count ":" (Calc.Parsed.UserAuth p) <> 1 ->
   (forall o indb out',
      Calc.get_calc_options E p args out <> Ok (o, indb, out')) /\
   (forall indb startT endT,
      Block.check_inputs E args = Ok indb ->
      Block.construct_time E "start" (Calc.Parsed.startT p) = Ok startT ->
      Block.construct_time E "end" (Calc.Parsed.endT p) = Ok endT ->
      Calc.get_calc_options E p args out
      = Fail (ParserError
                "Error: Incorrect Username and Password Strings for User Authentification"))).
Proof.
  assert (Hbad : Calc.Parsed.UserAuth p <> EmptyString ->
                 count ":" (Calc.Parsed.UserAuth p) <> 1 ->
                 Calc.user_auth (Calc.Parsed.UserAuth p)
                 = parser_error
                     "Error: Incorrect Username and Password Strings for User Authentification").
  { intros Hne Hcount. unfold Calc.user_auth.
    destruct (Calc.Parsed.UserAuth p) as [|c rest] eqn:Hauth;
      [now contradiction Hne|].
    cbn [String.length Nat.eqb negb]. cbv zeta.
    rewrite (SplitFacts.split_length ":"%char).
    destruct (S (count ":" (String c rest)) =? 2)%nat eqn:Hlen; [|reflexivity].
    apply Nat.eqb_eq in Hlen. injection Hlen as Hlen. now contradiction Hcount. }
  split.
  - intros o indb out' H.
    apply get_calc_options_run in H
      as (? & ? & auth & ? & ? & ? & ? & _ & _ & _ & Hauth & _ & _ & _ & _ & _ & ->).
    cbn [Calc.UserAuth].
    apply user_auth_Ok in Hauth as [[Hempty ->]|[Hlen ->]]; [now left|right].
    pose proof (SplitFacts.concat_split ":"%char (Calc.Parsed.UserAuth p)) as Hjoin.
    pose proof (SplitFacts.split_pieces ":"%char (Calc.Parsed.UserAuth p)) as Hpieces.
    destruct (Py.split ":" (Calc.Parsed.UserAuth p))
      as [|user [|password [|more rest']]]; try discriminate Hlen.
    exists user, password. inversion Hpieces as [|? ? Hu Hrest]; subst.
    inversion Hrest as [|? ? Hp _]; subst.
    split; [reflexivity|]. split; [|now split].
    symmetry. exact Hjoin.
  - intros Hne Hcount. specialize (Hbad Hne Hcount). split.
    + intros o indb out' H.
      apply get_calc_options_run in H
        as (? & ? & auth & ? & ? & ? & ? & _ & _ & _ & Hauth & _).
      rewrite Hbad in Hauth. discriminate.
    + intros indb startT endT H1 H2 H3.
      unfold Calc.get_calc_options, bind. rewrite H1, H2, H3, Hbad. reflexivity.
Qed.

End KeysAndAuth.

(** ** Times, names from a closed list, and the list of phases *)

(** What the time block makes of an option: nothing when the option is
    empty, the time built from the string when [UTCDateTime] accepts it. *)
Definition resolved_time (E : Env) (t : string) (r : option utc) : Prop :=
  (t = EmptyString /\ r = None) \/
  (t <> EmptyString /\ utc_parses E t = true /\ r = Some (UTCDateTime t)).

Section TimesAndNames.
Variable E : Env.

Lemma construct_time_Ok which t r :
  Block.construct_time E which t = Ok r -> resolved_time E t r.
Proof.
  unfold Block.construct_time, resolved_time.
  destruct t as [|c rest]; cbn [String.length Nat.ltb Nat.leb].
  - intros H. injection H as <-. now left.
  - destruct (utc_parses E (String c rest)); [|discriminate].
    intros H. injection H as <-. right. repeat split. discriminate.
Qed.

Lemma construct_time_rejected which t :
  t <> EmptyString -> utc_parses E t = false ->
  Block.construct_time E which t
  = parser_error ("Cannot construct UTCDateTime from " ++ which ++ " time: " ++ t).
Proof.
  intros Hne Hbad. unfold Block.construct_time.
  destruct t as [|c rest]; [now contradiction Hne|].
  cbn [String.length Nat.ltb Nat.leb]. now rewrite Hbad.
Qed.

(** X4.  The start and end times of the calc, H-k and harmonics variants.
    A run that returns has [startT] (and [endT]) [None] when the option is
    empty and otherwise the time built from the very string, which
    [UTCDateTime] accepts; a [--start] that [UTCDateTime] rejects ends the
    resolver, once the positional argument is checked, with the message
    that quotes the string. *)
Theorem time_options_resolved :
  (forall p args out o indb out',
     Calc.get_calc_options E p args out = Ok (o, indb, out') ->
     resolved_time E (Calc.Parsed.startT p) (Calc.startT o) /\
     resolved_time E (Calc.Parsed.endT p) (Calc.endT o)) /\
  (forall p args out o indb out',
     HK.get_hk_options E p args out = Ok (o, indb, out') ->
     resolved_time E (HK.Parsed.startT p) (HK.startT o) /\
     resolved_time E (HK.Parsed.endT p) (HK.endT o)) /\
  (forall p args out o indb out',
     Harmonics.get_harmonics_options E p args out = Ok (o, indb, out') ->
     resolved_time E (Harmonics.Parsed.startT p) (Harmonics.startT o) /\
     resolved_time E (Harmonics.Parsed.endT p) (Harmonics.endT o)) /\
  (forall args out indb t,
     Block.check_inputs E args = Ok indb ->
     t <> EmptyString -> utc_parses E t = false ->
     (forall p, Calc.Parsed.startT p = t ->
                Calc.get_calc_options E p args out
                = Fail (ParserError
                          ("Cannot construct UTCDateTime from start time: " ++ t))) /\
     (forall p, HK.Parsed.startT p = t ->
                HK.get_hk_options E p args out
                = Fail (ParserError
                          ("Cannot construct UTCDateTime from start time: " ++ t))) /\
     (forall p, Harmonics.Parsed.startT p = t ->
                Harmonics.get_harmonics_options E p args out
                = Fail (ParserError
                          ("Cannot construct UTCDateTime from start time: " ++ t)))).
Proof.
  repeat apply conj.
  - intros p args out o indb out' H.
    apply get_calc_options_run in H
      as (? & ? & ? & ? & ? & ? & ? & _ & H1 & H2 & _ & _ & _ & _ & _ & _ & ->).
    split; eapply construct_time_Ok; eassumption.
  - intros p args out o indb out' H.
    apply get_hk_options_run in H
      as (? & ? & ? & _ & H1 & H2 & _ & _ & _ & -> & -> & _).
    split; eapply construct_time_Ok; eassumption.
  - intros p args out o indb out' H.
    apply get_harmonics_options_Ok in H as (? & ? & _ & H1 & H2 & _).
    split; eapply construct_time_Ok; eassumption.
  - intros args out indb t Hin Hne Hbad.
    pose proof (construct_time_rejected "start" t Hne Hbad) as Hstart.
    repeat split; intros p Hp;
      unfold Calc.get_calc_options, HK.get_hk_options,
        Harmonics.get_harmonics_options, bind;
      rewrite Hin, Hp, Hstart; reflexivity.
Qed.

Lemma mem_In x l : Py.mem x l = true <-> In x l.
Proof.
  unfold Py.mem. rewrite existsb_exists. split.
  - intros (y & Hin & Heq). apply String.eqb_eq in Heq. now subst y.
  - intros Hin. exists x. split; [assumption|apply String.eqb_refl].
Qed.

Lemma alignment_Ok align r :
  Block.alignment align = Ok r ->
  In r ["ZRT"; "LQT"; "PVH"] /\
  match align with None => r = "ZRT" | Some a => r = a end.
Proof.
  unfold Block.alignment. destruct align as [a|].
  - destruct (Py.mem a ["ZRT"; "LQT"; "PVH"]) eqn:Hmem; [|discriminate].
    intros H. injection H as <-. split; [now apply mem_In|reflexivity].
  - intros H. injection H as <-. split; [simpl; auto|reflexivity].
Qed.

Lemma check_method_Ok method :
  Block.check_method method = Ok tt ->
  In method ["wiener"; "water"; "multitaper"].
Proof.
  unfold Block.check_method.
  destruct (Py.mem method _) eqn:Hmem; [|discriminate].
  intros _. now apply mem_In.
Qed.

(** X5.  The names from a closed list.  When the calc or the recalc
    resolver returns, [align] is one of ZRT, LQT, PVH (ZRT when [--align] is
    not given, the given name otherwise), [method] is one of wiener, water,
    multitaper, and [phase] is one of P, PP, S, SKS in the calc variant and
    one of P, PP, allP, S, SKS, allS in the recalc variant. *)
Theorem names_from_closed_lists :
  (forall p args out o indb out',
     Calc.get_calc_options E p args out = Ok (o, indb, out') ->
     In (Calc.phase o) ["P"; "PP"; "S"; "SKS"] /\
     Calc.phase o = Calc.Parsed.phase p /\
     In (Calc.align o) ["ZRT"; "LQT"; "PVH"] /\
     match Calc.Parsed.align p with
     | None => Calc.align o = "ZRT"
     | Some a => Calc.align o = a
     end /\
     In (Calc.method o) ["wiener"; "water"; "multitaper"] /\
     Calc.method o = Calc.Parsed.method p) /\
  (forall p args out o indb out',
     Recalc.get_recalc_options E p args out = Ok (o, indb, out') ->
     In (Recalc.phase o) ["P"; "PP"; "allP"; "S"; "SKS"; "allS"] /\
     Recalc.phase o = Recalc.Parsed.phase p /\
     In (Recalc.align o) ["ZRT"; "LQT"; "PVH"] /\
     match Recalc.Parsed.align p with
     | None => Recalc.align o = "ZRT"
     | Some a => Recalc.align o = a
     end /\
     In (Recalc.method o) ["wiener"; "water"; "multitaper"] /\
     Recalc.method o = Recalc.Parsed.method p).
Proof.
  split.
  - intros p args out o indb out' H.
    apply get_calc_options_run in H
      as (? & ? & ? & dist & ? & align & ? & _ & _ & _ & _ & Hdist & _ & Halign
          & _ & Hmethod & ->).
    cbn [Calc.phase Calc.align Calc.method].
    apply alignment_Ok in Halign as [Hin Hal].
    apply check_method_Ok in Hmethod.
    repeat split; try assumption.
    unfold Calc.check_distances in Hdist.
    destruct (Py.mem (Calc.Parsed.phase p) ["P"; "PP"; "S"; "SKS"]) eqn:Hmem;
      [|discriminate].
    now apply mem_In.
  - intros p args out o indb out' H.
    apply get_recalc_options_run in H
      as (? & align & ? & _ & Hphase & Halign & Hmethod & _ & _ & ->).
    cbn [Recalc.phase Recalc.align Recalc.method].
    apply alignment_Ok in Halign as [Hin Hal].
    apply check_method_Ok in Hmethod.
    apply list_phase_Ok in Hphase as (name & Hname & Hin').
    injection Hname as <-.
    repeat split; assumption.
Qed.

Lemma list_phase_expands phase l :
  Block.list_phase phase = Ok l ->
  (phase = Some "allP" /\ l = ["P"; "PP"]) \/
  (phase = Some "allS" /\ l = ["S"; "SKS"]) \/
  (exists name, phase = Some name /\ l = [name] /\
                In name ["P"; "PP"; "S"; "SKS"]).
Proof.
  unfold Block.list_phase. destruct phase as [name|]; [|discriminate].
  destruct (Py.mem name _) eqn:Hmem; [|discriminate]. simpl negb. cbv iota.
  apply mem_In in Hmem.
  destruct (String.eqb name "allP") eqn:HP.
  - apply String.eqb_eq in HP. subst name. intros H. injection H as <-. now left.
  - destruct (String.eqb name "allS") eqn:HS.
    + apply String.eqb_eq in HS. subst name. intros H. injection H as <-.
      right. now left.
    + intros H. injection H as <-. right. right. exists name.
      split; [reflexivity|]. split; [reflexivity|].
      apply String.eqb_neq in HP, HS. simpl in Hmem. simpl.
      destruct Hmem as [<-|[<-|[<-|[<-|[<-|[<-|[]]]]]]]; auto;
        now (contradiction HP || contradiction HS).
Qed.

(** X6.  The list of phases of the recalc and plot variants.  When the
    resolver returns, [listphase] is [P, PP] for allP, [S, SKS] for allS and
    the one phase otherwise: it is never empty and holds only the names P,
    PP, S and SKS. *)
Theorem listphase_holds_concrete_phases :
  (forall p args out o indb out',
     Recalc.get_recalc_options E p args out = Ok (o, indb, out') ->
     ((Recalc.Parsed.phase p = "allP" /\ Recalc.listphase o = ["P"; "PP"]) \/
      (Recalc.Parsed.phase p = "allS" /\ Recalc.listphase o = ["S"; "SKS"]) \/
      Recalc.listphase o = [Recalc.Parsed.phase p]) /\
     Recalc.listphase o <> [] /\
     Forall (fun name => In name ["P"; "PP"; "S"; "SKS"]) (Recalc.listphase o)) /\
  (forall p args out o indb out',
     Plot.get_plot_options E p args out = Ok (o, indb, out') ->
     ((Plot.Parsed.phase p = Some "allP" /\ Plot.listphase o = ["P"; "PP"]) \/
      (Plot.Parsed.phase p = Some "allS" /\ Plot.listphase o = ["S"; "SKS"]) \/
      (exists name, Plot.Parsed.phase p = Some name /\
                    Plot.listphase o = [name])) /\
     Plot.listphase o <> [] /\
     Forall (fun name => In name ["P"; "PP"; "S"; "SKS"]) (Plot.listphase o)).
Proof.
  split.
  - intros p args out o indb out' H.
    apply get_recalc_options_Ok in H as (_ & Hphase & _).
    apply list_phase_expands in Hphase
      as [[Hp ->]|[[Hp ->]|(name & Hp & -> & Hin)]];
      injection Hp as Hp.
    + repeat split; [now left|discriminate|].
      repeat apply Forall_cons; try apply Forall_nil; simpl; auto.
    + repeat split; [right; now left|discriminate|].
      repeat apply Forall_cons; try apply Forall_nil; simpl; auto.
    + subst name. repeat split; [right; now right|discriminate|].
      apply Forall_cons; [exact Hin|apply Forall_nil].
  - intros p args out o indb out' H.
    apply get_plot_options_Ok in H as (_ & _ & _ & Hphase & _).
    apply list_phase_expands in Hphase
      as [[Hp ->]|[[Hp ->]|(name & Hp & -> & Hin)]].
    + repeat split; [now left|discriminate|].
      repeat apply Forall_cons; try apply Forall_nil; simpl; auto.
    + repeat split; [right; now left|discriminate|].
      repeat apply Forall_cons; try apply Forall_nil; simpl; auto.
    + repeat split; [right; right; now exists name|discriminate|].
      apply Forall_cons; [exact Hin|apply Forall_nil].
Qed.

End TimesAndNames.

(** ** The list options: lengths and numbers that do not read *)

Section ListLengths.
Variable E : Env.

Lemma floats_length pieces vals :
  Block.floats E pieces = Ok vals -> length vals = length pieces.
Proof.
  revert vals. induction pieces as [|piece rest IH]; intros vals; simpl.
  - intros H. now injection H as <-.
  - destruct (float_of_str E piece); [|discriminate].
    destruct (Block.floats E rest) as [xs|e]; [|discriminate].
    intros H. injection H as <-. simpl. now rewrite (IH xs).
Qed.

Lemma floats_unreadable pieces piece :
  In piece pieces -> float_of_str E piece = None ->
  Block.floats E pieces = Fail (Raised "ValueError").
Proof.
  intros Hin Hbad. induction pieces as [|head rest IH]; [contradiction Hin|].
  simpl. destruct (float_of_str E head) as [x|] eqn:Hhead; [|reflexivity].
  destruct Hin as [->|Hin]; [congruence|].
  now rewrite (IH Hin).
Qed.

Lemma sorted_from_pieces n s l :
  sorted_from E n s l -> length (Py.split "," s) = n /\ length l = n.
Proof.
  intros (vals & Hvals & Hlen & ->). unfold Block.float_list in Hvals.
  apply floats_length in Hvals. rewrite SortFacts.sorted_length. split; congruence.
Qed.

Lemma sorted_floats_or_length default n msg x l :
  length default = n ->
  Block.sorted_floats_or E default n msg x = Ok l -> length l = n.
Proof.
  intros Hdefault H. apply sorted_floats_or_Ok in H. destruct x as [s|].
  - now apply sorted_from_pieces in H.
  - now subst l.
Qed.

(** X7.  The lengths of the H-k lists.  When the H-k resolver returns,
    [bp], [slowbound], [bazbound], [hbound] and [kbound] hold two floats and
    [weights] three, given or not, and so does [bp_copy] once it is read;
    and it never returns when one of these options is given with another
    number of comma-separated pieces. *)
Theorem hk_list_lengths p args out :
  (forall o indb out',
     HK.get_hk_options E p args out = Ok (o, indb, out') ->
     length (HK.bp o) = 2 /\ length (HK.slowbound o) = 2 /\
     length (HK.bazbound o) = 2 /\ length (HK.hbound o) = 2 /\
     length (HK.kbound o) = 2 /\ length (HK.weights o) = 3 /\
     (forall l, HK.bp_copy o = Floats l -> length l = 2)) /\
  (forall s n,
     In (Some s, n)
        [(HK.Parsed.bp p, 2); (HK.Parsed.slowbound p, 2);
         (HK.Parsed.bazbound p, 2); (HK.Parsed.hbound p, 2);
         (HK.Parsed.kbound p, 2); (HK.Parsed.weights p, 3)] ->
     length (Py.split "," s) <> n ->
     forall o indb out',
       HK.get_hk_options E p args out <> Ok (o, indb, out')).
Proof.
  split.
  - intros o indb out' H.
    apply get_hk_options_Ok in H
      as (_ & Hbp & Hslow & Hbaz & Hcopy & Hh & Hk & Hw & _).
    repeat apply conj;
      try (eapply sorted_floats_or_length; [|eassumption]; reflexivity).
    intros l Hl. apply copy_band_Ok in Hcopy. rewrite Hl in Hcopy.
    destruct (HK.Parsed.copy p); [|discriminate].
    destruct Hcopy as (l' & Heq & Hl'). injection Heq as <-.
    eapply sorted_floats_or_length; [|eassumption]. reflexivity.
  - intros s n Hin Hlen o indb out' H.
    apply get_hk_options_Ok in H
      as (_ & Hbp & Hslow & Hbaz & _ & Hh & Hk & Hw & _).
    simpl in Hin.
    destruct Hin as [Heq|[Heq|[Heq|[Heq|[Heq|[Heq|[]]]]]]];
      injection Heq as Hs <-; apply Hlen;
      match goal with
      | Hblock : Block.sorted_floats_or E _ _ _ ?x = Ok _, Hx : ?x = Some s |- _ =>
          rewrite Hx in Hblock; apply sorted_floats_or_Ok in Hblock;
          now apply sorted_from_pieces in Hblock
      end.
Qed.

(** X8.  A number that does not read.  When a piece of a list option is
    not accepted by [float], the list block ends with the uncaught
    [ValueError] and not with [parser.error], whatever the number of
    pieces; so do the plot resolver for such a [--slowbound] and the H-k
    resolver for such a [--bp], once the blocks before have passed. *)
Theorem unreadable_number_raises s piece :
  In piece (Py.split "," s) -> float_of_str E piece = None ->
  (forall n msg,
     Block.sorted_floats E n msg s = Fail (Raised "ValueError") /\
     Block.plain_floats E n msg s = Fail (Raised "ValueError")) /\
  (forall p args out indb,
     Block.check_inputs E args = Ok indb ->
     Plot.Parsed.slowbound p = Some s ->
     Plot.get_plot_options E p args out = Fail (Raised "ValueError")) /\
  (forall p args out indb startT endT dipping,
     Block.check_inputs E args = Ok indb ->
     Block.construct_time E "start" (HK.Parsed.startT p) = Ok startT ->
     Block.construct_time E "end" (HK.Parsed.endT p) = Ok endT ->
     HK.dipping (HK.Parsed.strike p) (HK.Parsed.dip p) (HK.Parsed.nbaz p)
       = Ok dipping ->
     HK.Parsed.bp p = Some s ->
     HK.get_hk_options E p args out = Fail (Raised "ValueError")).
Proof.
  intros Hin Hbad.
  assert (Hblock : forall n msg,
            Block.sorted_floats E n msg s = Fail (Raised "ValueError")).
  { intros n msg. unfold Block.sorted_floats, Block.float_list.
    now rewrite (floats_unreadable _ _ Hin Hbad). }
  repeat apply conj.
  - intros n msg. split; [apply Hblock|].
    unfold Block.plain_floats, Block.float_list.
    now rewrite (floats_unreadable _ _ Hin Hbad).
  - intros p args out indb H1 Hs.
    unfold Plot.get_plot_options, bind. rewrite H1, Hs. simpl.
    now rewrite Hblock.
  - intros p args out indb startT endT dipping H1 H2 H3 H4 Hs.
    unfold HK.get_hk_options, bind. rewrite H1, H2, H3, H4, Hs. simpl.
    now rewrite Hblock.
Qed.

(** X9.  The strike and the dip of the H-k variant.  A run that returns
    was given both or neither: with neither, [calc_dip] is [False] and
    [nbaz] is reset to [None], whatever [--nbaz] was; with both, [calc_dip]
    is [True] and [nbaz] is kept.  With only one of the two the resolver
    never returns, and it ends with "Specify both strike and dip" once the
    blocks before have passed. *)
Theorem hk_strike_and_dip p args out :
  (forall o indb out',
     HK.get_hk_options E p args out = Ok (o, indb, out') ->
     (HK.Parsed.strike p = None /\ HK.Parsed.dip p = None /\
      HK.calc_dip o = false /\ HK.nbaz o = None) \/
     (exists strike dip,
        HK.Parsed.strike p = Some strike /\ HK.Parsed.dip p = Some dip /\
        HK.calc_dip o = true /\ HK.nbaz o = Some (HK.Parsed.nbaz p))) /\
  ((HK.Parsed.strike p = None /\ HK.Parsed.dip p <> None) \/
   (HK.Parsed.strike p <> None /\ HK.Parsed.dip p = None) ->
   (forall o indb out',
      HK.get_hk_options E p args out <> Ok (o, indb, out')) /\
   (forall indb startT endT,
      Block.check_inputs E args = Ok indb ->
      Block.construct_time E "start" (HK.Parsed.startT p) = Ok startT ->
      Block.construct_time E "end" (HK.Parsed.endT p) = Ok endT ->
      HK.get_hk_options E p args out
      = Fail (ParserError
                "Specify both strike and dip for this type of analysis"))).
Proof.
  split.
  - intros o indb out' H.
    apply get_hk_options_run in H
      as (? & ? & dipping & _ & _ & _ & Hdip & _ & _ & _ & _ & _ & _ & Hc & Hn & _).
    rewrite Hc, Hn. unfold HK.dipping in Hdip.
    destruct (HK.Parsed.strike p) as [strike|], (HK.Parsed.dip p) as [dip|];
      try discriminate; injection Hdip as <-.
    + right. now exists strike, dip.
    + now left.
  - intros Hone.
    assert (Hbad : HK.dipping (HK.Parsed.strike p) (HK.Parsed.dip p)
                     (HK.Parsed.nbaz p)
                   = parser_error
                       "Specify both strike and dip for this type of analysis").
    { unfold HK.dipping.
      destruct Hone as [[-> Hd]|[Hs ->]].
      - destruct (HK.Parsed.dip p); [reflexivity|now contradiction Hd].
      - destruct (HK.Parsed.strike p); [reflexivity|now contradiction Hs]. }
    split.
    + intros o indb out' H.
      apply get_hk_options_run in H as (? & ? & ? & _ & _ & _ & Hdip & _).
      rewrite Hbad in Hdip. discriminate.
    + intros indb startT endT H1 H2 H3.
      unfold HK.get_hk_options, bind. rewrite H1, H2, H3, Hbad. reflexivity.
Qed.

End ListLengths.

(** ** The CCP variant *)

Section CCPFacts.
Variable E : Env.

(** X10.  The type of stack of the CCP variant.  When the resolver
    returns, [linear] and [phase] are never both set, and exactly one of
    them is set as soon as [--ccp] or [--gccp] is; a flag the user set is
    kept, and when the user set neither, [--ccp] selects [linear] and
    [--gccp] without [--ccp] selects [phase].  With both [--linear] and
    [--phase] the resolver never returns. *)
Theorem ccp_stacking_type p args out :
  (forall o indb out',
     CCP.get_ccp_options E p args out = Ok (o, indb, out') ->
     CCP.linear o && CCP.phase o = false /\
     (CCP.ccp o || CCP.gccp o = true ->
      xorb (CCP.linear o) (CCP.phase o) = true) /\
     (CCP.Parsed.linear p = true -> CCP.linear o = true) /\
     (CCP.Parsed.phase p = true -> CCP.phase o = true) /\
     (CCP.Parsed.linear p = false -> CCP.Parsed.phase p = false ->
      CCP.linear o = CCP.Parsed.ccp p /\
      CCP.phase o = CCP.Parsed.gccp p && negb (CCP.Parsed.ccp p))) /\
  (CCP.Parsed.linear p = true -> CCP.Parsed.phase p = true ->
   forall o indb out',
     CCP.get_ccp_options E p args out <> Ok (o, indb, out')).
Proof.
  split.
  - intros o indb out' H.
    apply get_ccp_options_run in H
      as (? & ? & stack & _ & _ & _ & _ & Hstack & _ & _ & ->).
    cbn [CCP.linear CCP.phase CCP.ccp CCP.gccp].
    unfold CCP.stacking in Hstack.
    destruct (CCP.Parsed.linear p), (CCP.Parsed.phase p); simpl in Hstack;
      try discriminate;
      destruct (CCP.Parsed.ccp p), (CCP.Parsed.gccp p); simpl in Hstack;
      injection Hstack as <-; simpl; repeat split; congruence.
  - intros Hl Hp o indb out' H.
    apply get_ccp_options_run in H
      as (? & ? & stack & _ & _ & _ & _ & Hstack & _).
    unfold CCP.stacking in Hstack. rewrite Hl, Hp in Hstack. discriminate.
Qed.

Lemma colour_bound_set cbound ccp gccp :
  ccp || gccp = true ->
  Py.truthy_opt (CCP.colour_bound cbound ccp gccp) = true.
Proof.
  unfold CCP.colour_bound. intros Hstep.
  destruct (Py.truthy_opt cbound) eqn:Hc; simpl.
  - exact Hc.
  - destruct gccp; [reflexivity|]. destruct ccp; [reflexivity|discriminate].
Qed.

(** X11.  The figure of the CCP variant.  When the resolver returns with
    [--figure], one of [--ccp] and [--gccp] is set; and whenever one of
    them is set the colour bound is a number other than zero: the one the
    user gave when it is not zero, 0.015 with [--gccp] and 0.05 with
    [--ccp] alone otherwise.  With [--figure] and neither [--ccp] nor
    [--gccp] the resolver never returns. *)
Theorem ccp_figure_needs_a_stack p args out :
  (forall o indb out',
     CCP.get_ccp_options E p args out = Ok (o, indb, out') ->
     (CCP.ccp_figure o = true -> CCP.ccp o || CCP.gccp o = true) /\
     (CCP.ccp o || CCP.gccp o = true ->
      Py.truthy_opt (CCP.cbound o) = true /\
      (Py.truthy_opt (CCP.Parsed.cbound p) = true ->
       CCP.cbound o = CCP.Parsed.cbound p) /\
      (Py.truthy_opt (CCP.Parsed.cbound p) = false ->
       CCP.cbound o = Some (if CCP.gccp o then 0.015 else 0.05)%float))) /\
  (CCP.Parsed.ccp_figure p = true ->
   CCP.Parsed.ccp p = false -> CCP.Parsed.gccp p = false ->
   forall o indb out',
     CCP.get_ccp_options E p args out <> Ok (o, indb, out')).
Proof.
  split.
  - intros o indb out' H.
    apply get_ccp_options_run in H
      as (? & ? & ? & _ & _ & _ & _ & _ & _ & Hfig & ->).
    cbn [CCP.ccp_figure CCP.ccp CCP.gccp CCP.cbound].
    split.
    + intros Hf. unfold CCP.check_figure in Hfig. rewrite Hf in Hfig.
      destruct (CCP.Parsed.ccp p || CCP.Parsed.gccp p); [reflexivity|discriminate].
    + intros Hstep. split; [now apply colour_bound_set|].
      unfold CCP.colour_bound. split; intros Hc; rewrite Hc; simpl.
      * reflexivity.
      * destruct (CCP.Parsed.gccp p); [reflexivity|].
        destruct (CCP.Parsed.ccp p); [reflexivity|discriminate].
  - intros Hf Hc Hg o indb out' H.
    apply get_ccp_options_run in H
      as (? & ? & ? & _ & _ & _ & _ & _ & _ & Hfig & _).
    unfold CCP.check_figure in Hfig. rewrite Hf, Hc, Hg in Hfig. discriminate.
Qed.

(** X12.  What the CCP resolver prints.  A run that returns printed
    nothing, or only the warning that no figure will be produced; with a
    format that is not the empty string (the default is png) it printed the
    warning exactly when [--ccp] or [--gccp] is set without [--figure],
    whether or not [--save-fig] or [--cbound] was given. *)
Theorem ccp_figure_warning p args out o indb out' :
  CCP.get_ccp_options E p args out = Ok (o, indb, out') ->
  (out' = out \/ out' = out ++ [Line CCP.figure_warning]) /\
  (CCP.Parsed.fmt p <> EmptyString ->
   out' = if (CCP.Parsed.ccp p || CCP.Parsed.gccp p)
             && negb (CCP.Parsed.ccp_figure p)
          then out ++ [Line CCP.figure_warning] else out).
Proof.
  intros H.
  apply get_ccp_options_run in H
    as (? & ? & ? & _ & _ & _ & _ & _ & Hwarn & _ & _).
  unfold CCP.warn_figure in Hwarn. split.
  - destruct (CCP.Parsed.ccp p || CCP.Parsed.gccp p);
      [destruct (_ && _)|]; injection Hwarn as <-; auto.
  - intros Hfmt.
    assert (Htruthy : Py.truthy_str (CCP.Parsed.fmt p) = true).
    { unfold Py.truthy_str. destruct (CCP.Parsed.fmt p); [now contradiction Hfmt|].
      reflexivity. }
    rewrite Htruthy, !orb_true_r in Hwarn. simpl in Hwarn.
    destruct (CCP.Parsed.ccp p || CCP.Parsed.gccp p); simpl;
      [destruct (CCP.Parsed.ccp_figure p); simpl in *|];
      now injection Hwarn as <-.
Qed.

Lemma coordinate_Ok flag load coord r :
  CCP.coordinate E flag load coord = Ok r ->
  if load then
    exists s x y,
      coord = Some s /\ Block.float_list E s = Ok [x; y] /\ r = Floats [x; y]
  else r = AsParsed coord.
Proof.
  unfold CCP.coordinate. destruct coord as [s|], load; try discriminate;
    try (intros H; now injection H as <-).
  unfold Block.plain_floats.
  destruct (Block.float_list E s) as [vals|e] eqn:Hvals; [|discriminate].
  destruct vals as [|x [|y [|z rest]]]; simpl; try discriminate.
  intros H. injection H as <-. now exists s, x, y.
Qed.

(** X13.  The end points of the CCP line.  Without [--load] the options
    [--start] and [--end] are not read and stay as given.  With [--load] a
    run that returns was given both, each of two numbers, and holds them in
    the order given; a missing [--start] ends the resolver with
    "--start=lon,lat is required" once the positional argument is checked,
    and a missing [--end] with "--end=lon,lat is required" once [--start]
    is read. *)
Theorem ccp_line_end_points p args out :
  (forall o indb out',
     CCP.get_ccp_options E p args out = Ok (o, indb, out') ->
     if CCP.Parsed.load p then
       exists s1 x1 y1 s2 x2 y2,
         CCP.Parsed.coord_start p = Some s1 /\
         Block.float_list E s1 = Ok [x1; y1] /\
         CCP.coord_start o = Floats [x1; y1] /\
         CCP.Parsed.coord_end p = Some s2 /\
         Block.float_list E s2 = Ok [x2; y2] /\
         CCP.coord_end o = Floats [x2; y2]
     else
       CCP.coord_start o = AsParsed (CCP.Parsed.coord_start p) /\
       CCP.coord_end o = AsParsed (CCP.Parsed.coord_end p)) /\
  (CCP.Parsed.load p = true ->
   forall indb,
     Block.check_inputs E args = Ok indb ->
     (CCP.Parsed.coord_start p = None ->
      CCP.get_ccp_options E p args out
      = Fail (ParserError "--start=lon,lat is required")) /\
     (forall start,
        CCP.coordinate E "start" true (CCP.Parsed.coord_start p) = Ok start ->
        CCP.Parsed.coord_end p = None ->
        CCP.get_ccp_options E p args out
        = Fail (ParserError "--end=lon,lat is required"))).
Proof.
  split.
  - intros o indb out' H.
    apply get_ccp_options_run in H
      as (cstart & cend & stack & _ & Hs & He & _ & _ & _ & _ & ->).
    cbn [CCP.coord_start CCP.coord_end].
    apply coordinate_Ok in Hs. apply coordinate_Ok in He.
    destruct (CCP.Parsed.load p).
    + destruct Hs as (s1 & x1 & y1 & H1 & H2 & ->).
      destruct He as (s2 & x2 & y2 & H3 & H4 & ->).
      now exists s1, x1, y1, s2, x2, y2.
    + now subst.
  - intros Hload indb Hin. split.
    + intros Hs. unfold CCP.get_ccp_options, bind.
      rewrite Hin, Hload, Hs. reflexivity.
    + intros start Hs He. unfold CCP.get_ccp_options, bind.
      rewrite Hin, Hload. simpl. rewrite Hs, He. reflexivity.
Qed.

End CCPFacts.

(** ** The distances and the SNR window of the calc variant *)

Lemma phase_ranges_functional phase lo hi lo' hi' :
  In (phase, (lo, hi)) phase_ranges -> In (phase, (lo', hi')) phase_ranges ->
  lo = lo' /\ hi = hi'.
Proof.
  unfold phase_ranges. simpl. intros H H'.
  destruct H as [H|[H|[H|[H|[]]]]]; destruct H' as [H'|[H'|[H'|[H'|[]]]]];
    injection H as <- <- <-; try discriminate H';
    injection H' as <- <-; now split.
Qed.

Module NaNFacts.

Lemma SFcompare_refl (x : spec_float) :
  x <> S754_nan -> SFcompare x x = Some Eq.
Proof.
  destruct x as [s|s| |s m e]; simpl; intros H; try congruence.
  - now destruct s.
  - destruct s; rewrite Z.compare_refl, Pos.compare_cont_refl; reflexivity.
Qed.

Lemma is_nan_true (x : float) : is_nan x = true -> Prim2SF x = S754_nan.
Proof.
  unfold is_nan. rewrite eqb_spec. unfold SFeqb. intros H.
  destruct (Prim2SF x) as [s|s| |s m e] eqn:Hx; try reflexivity;
    rewrite SFcompare_refl in H; discriminate.
Qed.

(** A comparison with a NaN is false. *)
Lemma lt_nan (x y : float) :
  is_nan x = true \/ is_nan y = true -> PyFloat.lt x y = false.
Proof.
  unfold PyFloat.lt. rewrite ltb_spec. unfold SFltb.
  intros [H|H]; apply is_nan_true in H; rewrite H.
  - reflexivity.
  - now destruct (Prim2SF x).
Qed.

End NaNFacts.

Section CalcWindow.
Variable E : Env.

(** X14.  The distances of the calc variant.  When the resolver returns,
    each of [mindist] and [maxdist] is the value the user gave when that
    value is not zero, and the bound of the phase otherwise, the one
    independently of the other.  A [--mindist] other than zero below the
    range of the phase, or a [--maxdist] above it, never lets the resolver
    return. *)
Theorem calc_distances_kept_or_defaulted p args out :
  (forall o indb out',
     Calc.get_calc_options E p args out = Ok (o, indb, out') ->
     exists lo hi,
       In (Calc.Parsed.phase p, (lo, hi)) phase_ranges /\
       Calc.mindist o
       = Some (match Calc.Parsed.mindist p with
               | Some x => if PyFloat.truthy x then x else lo
               | None => lo
               end) /\
       Calc.maxdist o
       = Some (match Calc.Parsed.maxdist p with
               | Some x => if PyFloat.truthy x then x else hi
               | None => hi
               end)) /\
  (forall lo hi x,
     In (Calc.Parsed.phase p, (lo, hi)) phase_ranges ->
     PyFloat.truthy x = true ->
     (Calc.Parsed.mindist p = Some x /\ PyFloat.lt x lo = true) \/
     (Calc.Parsed.maxdist p = Some x /\ PyFloat.gt x hi = true) ->
     forall o indb out',
       Calc.get_calc_options E p args out <> Ok (o, indb, out')).
Proof.
  assert (Hrun : forall o indb out',
            Calc.get_calc_options E p args out = Ok (o, indb, out') ->
            exists lo hi low high,
              In (Calc.Parsed.phase p, (lo, hi)) phase_ranges /\
              Calc.mindist o = Some low /\ Calc.maxdist o = Some high /\
              PyFloat.lt low lo = false /\ PyFloat.gt high hi = false /\
              low = match Calc.Parsed.mindist p with
                    | Some x => if PyFloat.truthy x then x else lo
                    | None => lo
                    end /\
              high = match Calc.Parsed.maxdist p with
                     | Some x => if PyFloat.truthy x then x else hi
                     | None => hi
                     end).
  { intros o indb out' H.
    apply get_calc_options_run in H
      as (st & en & au & dist & pf & al & dt & _ & _ & _ & _ & Hdist & _ & _ & _ & _ & ->).
    cbn [Calc.mindist Calc.maxdist].
    destruct (check_distances_dispatch (Calc.Parsed.phase p))
      as [Hbad|(lo & hi & msg & Hin & Hbranch)].
    - rewrite Hbad in Hdist. discriminate.
    - rewrite Hbranch in Hdist.
      apply distance_branch_Ok in Hdist
        as (low & high & -> & Hlo & Hhi & Hlow & Hhigh).
      exists lo, hi, low, high. repeat split; try assumption.
      + rewrite Hlow. destruct (Calc.Parsed.mindist p) as [x|]; simpl;
          [destruct (PyFloat.truthy x)|]; reflexivity.
      + rewrite Hhigh. destruct (Calc.Parsed.maxdist p) as [x|]; simpl;
          [destruct (PyFloat.truthy x)|]; reflexivity. }
  split.
  - intros o indb out' H.
    destruct (Hrun o indb out' H)
      as (lo & hi & low & high & Hin & Hmin & Hmax & _ & _ & -> & ->).
    now exists lo, hi.
  - intros lo hi x Hin Hx Hout o indb out' H.
    destruct (Hrun o indb out' H)
      as (lo' & hi' & low & high & Hin' & _ & _ & Hlo & Hhi & Hlow & Hhigh).
    destruct (phase_ranges_functional _ _ _ _ _ Hin Hin') as [<- <-].
    destruct Hout as [[Hmin Hbelow]|[Hmax Habove]].
    + rewrite Hmin, Hx in Hlow. subst low. congruence.
    + rewrite Hmax, Hx in Hhigh. subst high. congruence.
Qed.

(** X15.  The SNR window when it does not exceed the data window.  When
    [dt_snr > dts] is false, which is the case as soon as one of the two is
    NaN, a run of the calc resolver that returns keeps [dt_snr] and prints
    nothing; and in every run that returns [dts] is as given and the output
    is at most the one warning. *)
Theorem calc_snr_window_kept p args out o indb out' :
  Calc.get_calc_options E p args out = Ok (o, indb, out') ->
  (PyFloat.gt (Calc.Parsed.dt_snr p) (Calc.Parsed.dts p) = false ->
   Calc.dt_snr o = Calc.Parsed.dt_snr p /\ out' = out) /\
  (is_nan (Calc.Parsed.dt_snr p) = true \/ is_nan (Calc.Parsed.dts p) = true ->
   Calc.dt_snr o = Calc.Parsed.dt_snr p /\ out' = out) /\
  Calc.dts o = Calc.Parsed.dts p /\
  (out' = out \/ out' = out ++ [Line Calc.snr_warning]).
Proof.
  intros H.
  apply get_calc_options_run in H
    as (st & en & au & dist & pf & al & dt & _ & _ & _ & _ & _ & _ & _ & Hsnr & _ & ->).
  cbn [Calc.dt_snr Calc.dts]. unfold Calc.snr_window in Hsnr.
  assert (Hkept : PyFloat.gt (Calc.Parsed.dt_snr p) (Calc.Parsed.dts p) = false ->
                  dt = Calc.Parsed.dt_snr p /\ out' = out).
  { intros Hgt. rewrite Hgt in Hsnr. injection Hsnr as <- <-. now split. }
  split; [exact Hkept|]. split; [|split; [reflexivity|]].
  - intros Hnan. apply Hkept. unfold PyFloat.gt. apply NaNFacts.lt_nan. tauto.
  - destruct (PyFloat.gt _ _); injection Hsnr as <- <-; auto.
Qed.

End CalcWindow.

(** ** The azimuth of the harmonics variant and the time axis of the plot *)

Section AzimuthAndAxis.
Variable E : Env.

(** X16.  The azimuth of the harmonics variant.  When the resolver
    returns, either [find_azim] is off, there is an azimuth (the one given,
    0. when none was given) and [trange] is left as parsed, or [find_azim]
    is on, there is no azimuth and [trange] is an ordered pair (0., 10. by
    default): never both an azimuth and the search, and never neither.  The
    search stays on only when the user asked for it without an azimuth. *)
Theorem harmonics_azimuth_or_search p args out o indb out' :
  Harmonics.get_harmonics_options E p args out = Ok (o, indb, out') ->
  ((Harmonics.find_azim o = false /\
    (exists a, Harmonics.azim o = Some a) /\
    Harmonics.trange o = AsParsed (Harmonics.Parsed.trange p)) \/
   (Harmonics.find_azim o = true /\ Harmonics.azim o = None /\
    exists l, Harmonics.trange o = Floats l /\ ordered_pair l)) /\
  Harmonics.azim o
  = match Harmonics.Parsed.azim p with
    | Some a => Some a
    | None => if Harmonics.Parsed.find_azim p then None else Some 0%float
    end /\
  Harmonics.find_azim o
  = match Harmonics.Parsed.azim p with
    | Some _ => false
    | None => Harmonics.Parsed.find_azim p
    end /\
  (Harmonics.find_azim o = true -> Harmonics.Parsed.trange p = None ->
   Harmonics.trange o = Floats [0; 10]%float).
Proof.
  intros H.
  apply get_harmonics_options_Ok in H
    as (az & out1 & _ & _ & _ & _ & Haz & Htr & Ha & Hf).
  apply time_range_Ok in Htr. rewrite Ha, Hf. clear Ha Hf.
  unfold Harmonics.azimuth in Haz.
  destruct (Harmonics.Parsed.azim p) as [a|],
           (Harmonics.Parsed.find_azim p);
    injection Haz as <- <-; simpl in *.
  - destruct Htr as [-> _]. repeat split; try discriminate.
    left. repeat split. now exists a.
  - destruct Htr as [-> _]. repeat split; try discriminate.
    left. repeat split. now exists a.
  - repeat split.
    + right. repeat split.
      destruct (Harmonics.Parsed.trange p) as [s|].
      * destruct Htr as (l & -> & Hl & _). exists l. split; [reflexivity|].
        now apply sorted_from_ordered in Hl.
      * destruct Htr as [-> _]. eexists. split; [reflexivity|].
        apply literal_pair_ordered. reflexivity.
    + intros _ Hnone. rewrite Hnone in Htr. now destruct Htr as [-> _].
  - destruct Htr as [-> _]. repeat split; try discriminate.
    left. repeat split. now exists 0%float.
Qed.

(** X17.  The time axis of the plot variant.  When the resolver returns
    without [--trange], [trange] stays [None] and [tmin], [tmax] are 0. and
    30.; with [--trange], [trange] is the sorted pair read from the option
    and [tmin] and [tmax] are not set at all.  [--bp] is a sorted pair when
    given and stays [None] otherwise, and the resolver prints nothing. *)
Theorem plot_time_axis p args out o indb out' :
  Plot.get_plot_options E p args out = Ok (o, indb, out') ->
  match Plot.Parsed.trange p with
  | None =>
      Plot.trange o = None /\
      Plot.tmin o = Some 0%float /\ Plot.tmax o = Some 30%float
  | Some s =>
      (exists l, Plot.trange o = Some l /\ sorted_from E 2 s l) /\
      Plot.tmin o = None /\ Plot.tmax o = None
  end /\
  match Plot.Parsed.bp p with
  | None => Plot.bp o = None
  | Some s => exists l, Plot.bp o = Some l /\ sorted_from E 2 s l
  end /\
  out' = out.
Proof.
  intros H.
  pose proof (get_plot_options_run E _ _ _ _ _ _ H) as (_ & Hmin & Hmax & _).
  apply get_plot_options_Ok in H as (_ & _ & _ & _ & Hbp & Htr & _ & _ & Hout).
  apply sorted_floats_if_given_Ok in Hbp, Htr.
  rewrite Hmin, Hmax.
  destruct (Plot.Parsed.trange p), (Plot.Parsed.bp p); repeat split; assumption.
Qed.

End AzimuthAndAxis.

(** ** More runs in the sample world *)

(** [--keys IU,CN.HYB --start 2019-01-01 --User-Auth user:secret] *)
Definition calc_keys_and_auth : Calc.Parsed.t := {|
  Calc.Parsed.stkeys := "IU,CN.HYB";
  Calc.Parsed.startT := "2019-01-01";
  Calc.Parsed.endT := EmptyString;
  Calc.Parsed.UserAuth := "user:secret";
  Calc.Parsed.localdata := None;
  Calc.Parsed.ndval := false;
  Calc.Parsed.phase := "P";
  Calc.Parsed.mindist := None;
  Calc.Parsed.maxdist := None;
  Calc.Parsed.pre_filt := None;
  Calc.Parsed.align := None;
  Calc.Parsed.dt_snr := 30%float;
  Calc.Parsed.dts := 150%float;
  Calc.Parsed.method := "wiener"
|}.

(** [--slowbound 0.04,fast --nbaz 36 --phase P] *)
Definition plot_unreadable_slowbound : Plot.Parsed.t := {|
  Plot.Parsed.stkeys := EmptyString;
  Plot.Parsed.slowbound := Some "0.04,fast";
  Plot.Parsed.bazbound := None;
  Plot.Parsed.phase := Some "P";
  Plot.Parsed.bp := None;
  Plot.Parsed.trange := None;
  Plot.Parsed.nbaz := Some 36%Z;
  Plot.Parsed.nslow := None
|}.

(** [--ccp], with or without [--figure] *)
Definition ccp_stack (figure : bool) : CCP.Parsed.t := {|
  CCP.Parsed.stkeys := EmptyString;
  CCP.Parsed.coord_start := None;
  CCP.Parsed.coord_end := None;
  CCP.Parsed.load := false;
  CCP.Parsed.prep := false;
  CCP.Parsed.prestack := false;
  CCP.Parsed.ccp := true;
  CCP.Parsed.gccp := false;
  CCP.Parsed.linear := false;
  CCP.Parsed.phase := false;
  CCP.Parsed.ccp_figure := figure;
  CCP.Parsed.cbound := None;
  CCP.Parsed.save_figure := false;
  CCP.Parsed.fmt := "png"
|}.

Lemma station_keys_split_witness :
  exists o,
    Calc.get_calc_options Sample.env calc_keys_and_auth ["stations.pkl"] []
    = Ok (o, "stations.pkl", []) /\
    Calc.stkeys o = inr ["IU"; "CN.HYB"].
Proof.
  eexists. split; [cbv; reflexivity|].
  destruct (station_keys_split Sample.env) as (_ & Hcalc & _).
  erewrite (Hcalc calc_keys_and_auth ["stations.pkl"] []);
    [reflexivity | cbv; reflexivity].
Defined.

Lemma calc_user_auth_witness :
  exists o,
    Calc.get_calc_options Sample.env calc_keys_and_auth ["stations.pkl"] []
    = Ok (o, "stations.pkl", []) /\
    ((Calc.Parsed.UserAuth calc_keys_and_auth = EmptyString /\
      Calc.UserAuth o = []) \/
     (exists user password,
        Calc.UserAuth o = [user; password] /\
        Calc.Parsed.UserAuth calc_keys_and_auth
        = (user ++ ":" ++ password)%string /\
        count ":" user = 0 /\ count ":" password = 0)).
Proof.
  eexists. split; [cbv; reflexivity|].
  eapply (proj1 (calc_user_auth Sample.env calc_keys_and_auth
                   ["stations.pkl"] [])).
  cbv. reflexivity.
Defined.

Lemma time_options_resolved_witness :
  exists o,
    Calc.get_calc_options Sample.env calc_keys_and_auth ["stations.pkl"] []
    = Ok (o, "stations.pkl", []) /\
    resolved_time Sample.env "2019-01-01" (Calc.startT o) /\
    resolved_time Sample.env EmptyString (Calc.endT o).
Proof.
  eexists. split; [cbv; reflexivity|].
  destruct (time_options_resolved Sample.env) as (Hcalc & _).
  eapply (Hcalc calc_keys_and_auth ["stations.pkl"] []).
  cbv. reflexivity.
Defined.

Lemma names_from_closed_lists_witness :
  exists o,
    Calc.get_calc_options Sample.env Calc.Parsed.defaults ["stations.pkl"] []
    = Ok (o, "stations.pkl", []) /\
    In (Calc.align o) ["ZRT"; "LQT"; "PVH"] /\
    In (Calc.method o) ["wiener"; "water"; "multitaper"].
Proof.
  eexists. split; [cbv; reflexivity|].
  destruct (names_from_closed_lists Sample.env) as (Hcalc & _).
  edestruct (Hcalc Calc.Parsed.defaults ["stations.pkl"] [])
    as (_ & _ & Halign & _ & Hmethod & _); [cbv; reflexivity|].
  split; [exact Halign|exact Hmethod].
Defined.

Lemma listphase_holds_concrete_phases_witness :
  exists o,
    Recalc.get_recalc_options Sample.env Recalc.Parsed.defaults
      ["stations.pkl"] []
    = Ok (o, "stations.pkl", []) /\
    Recalc.listphase o <> [] /\
    Forall (fun name => In name ["P"; "PP"; "S"; "SKS"]) (Recalc.listphase o).
Proof.
  eexists. split; [cbv; reflexivity|].
  destruct (listphase_holds_concrete_phases Sample.env) as (Hrecalc & _).
  edestruct (Hrecalc Recalc.Parsed.defaults ["stations.pkl"] [])
    as (_ & Hne & Hall); [cbv; reflexivity|].
  split; [exact Hne|exact Hall].
Defined.

Lemma hk_list_lengths_witness :
  exists o,
    HK.get_hk_options Sample.env hk_given_lists ["stations.pkl"] []
    = Ok (o, "stations.pkl", []) /\
    length (HK.bp o) = 2 /\ length (HK.weights o) = 3.
Proof.
  eexists. split; [cbv; reflexivity|].
  edestruct (proj1 (hk_list_lengths Sample.env hk_given_lists
                      ["stations.pkl"] []))
    as (Hbp & _ & _ & _ & _ & Hw & _); [cbv; reflexivity|].
  split; [exact Hbp|exact Hw].
Defined.

Lemma unreadable_number_raises_witness :
  Plot.get_plot_options Sample.env plot_unreadable_slowbound ["stations.pkl"] []
  = Fail (Raised "ValueError").
Proof.
  destruct (unreadable_number_raises Sample.env "0.04,fast" "fast")
    as (_ & Hplot & _).
  - simpl. auto.
  - reflexivity.
  - apply (Hplot plot_unreadable_slowbound ["stations.pkl"] [] "stations.pkl");
      reflexivity.
Defined.

Lemma hk_strike_and_dip_witness :
  exists o,
    HK.get_hk_options Sample.env HK.Parsed.defaults ["stations.pkl"] []
    = Ok (o, "stations.pkl", []) /\
    HK.Parsed.nbaz HK.Parsed.defaults = 36%Z /\
    HK.calc_dip o = false /\ HK.nbaz o = None.
Proof.
  eexists. split; [cbv; reflexivity|]. split; [reflexivity|].
  edestruct (proj1 (hk_strike_and_dip Sample.env HK.Parsed.defaults
                      ["stations.pkl"] []))
    as [(_ & _ & Hc & Hn)|(strike & dip & Hs & _)];
    [cbv; reflexivity| |discriminate Hs].
  split; [exact Hc|exact Hn].
Defined.

Lemma ccp_stacking_type_witness :
  exists o,
    CCP.get_ccp_options Sample.env (ccp_stack true) ["stations.pkl"] []
    = Ok (o, "stations.pkl", []) /\
    CCP.linear o = true /\ CCP.phase o = false.
Proof.
  eexists. split; [cbv; reflexivity|].
  edestruct (proj1 (ccp_stacking_type Sample.env (ccp_stack true)
                      ["stations.pkl"] []))
    as (_ & _ & _ & _ & Hdefault); [cbv; reflexivity|].
  exact (Hdefault eq_refl eq_refl).
Defined.

Lemma ccp_figure_needs_a_stack_witness :
  exists o,
    CCP.get_ccp_options Sample.env (ccp_stack true) ["stations.pkl"] []
    = Ok (o, "stations.pkl", []) /\
    CCP.cbound o = Some 0.05%float.
Proof.
  eexists. split; [cbv; reflexivity|].
  edestruct (proj1 (ccp_figure_needs_a_stack Sample.env (ccp_stack true)
                      ["stations.pkl"] []))
    as (_ & Hbound); [cbv; reflexivity|].
  destruct (Hbound eq_refl) as (_ & _ & Hdefault).
  exact (Hdefault eq_refl).
Defined.

Lemma ccp_figure_warning_witness :
  exists o,
    CCP.get_ccp_options Sample.env (ccp_stack false) ["stations.pkl"] []
    = Ok (o, "stations.pkl", [Line CCP.figure_warning]).
Proof.
  destruct (CCP.get_ccp_options Sample.env (ccp_stack false)
              ["stations.pkl"] []) as [[[o indb] out']|e] eqn:Hrun;
    [|discriminate Hrun].
  destruct (ccp_figure_warning Sample.env _ _ _ _ _ _ Hrun) as [_ Hout].
  rewrite (Hout ltac:(discriminate)).
  exists o. cbv in Hrun. injection Hrun as <- <- <-. reflexivity.
Defined.

Lemma ccp_line_end_points_witness :
  exists o,
    CCP.get_ccp_options Sample.env ccp_load_line ["stations.pkl"] []
    = Ok (o, "stations.pkl", []) /\
    exists s1 x1 y1 s2 x2 y2,
      CCP.Parsed.coord_start ccp_load_line = Some s1 /\
      Block.float_list Sample.env s1 = Ok [x1; y1] /\
      CCP.coord_start o = Floats [x1; y1] /\
      CCP.Parsed.coord_end ccp_load_line = Some s2 /\
      Block.float_list Sample.env s2 = Ok [x2; y2] /\
      CCP.coord_end o = Floats [x2; y2].
Proof.
  eexists. split; [cbv; reflexivity|].
  eapply (proj1 (ccp_line_end_points Sample.env ccp_load_line
                   ["stations.pkl"] [])).
  cbv. reflexivity.
Defined.

Lemma calc_distances_kept_or_defaulted_witness :
  exists o,
    Calc.get_calc_options Sample.env calc_distances_90_40 ["stations.pkl"] []
    = Ok (o, "stations.pkl", []) /\
    exists lo hi,
      In (Calc.Parsed.phase calc_distances_90_40, (lo, hi)) phase_ranges /\
      Calc.mindist o
      = Some (match Calc.Parsed.mindist calc_distances_90_40 with
              | Some x => if PyFloat.truthy x then x else lo
              | None => lo
              end) /\
      Calc.maxdist o
      = Some (match Calc.Parsed.maxdist calc_distances_90_40 with
              | Some x => if PyFloat.truthy x then x else hi
              | None => hi
              end).
Proof.
  eexists. split; [cbv; reflexivity|].
  eapply (proj1 (calc_distances_kept_or_defaulted Sample.env
                   calc_distances_90_40 ["stations.pkl"] [])).
  cbv. reflexivity.
Defined.

Lemma calc_snr_window_kept_witness :
  exists o,
    Calc.get_calc_options Sample.env Calc.Parsed.defaults ["stations.pkl"] []
    = Ok (o, "stations.pkl", []) /\
    Calc.dt_snr o = 30%float.
Proof.
  eexists. split; [cbv; reflexivity|].
  edestruct (calc_snr_window_kept Sample.env Calc.Parsed.defaults
               ["stations.pkl"] []) as (Hkept & _); [cbv; reflexivity|].
  exact (proj1 (Hkept eq_refl)).
Defined.

Lemma harmonics_azimuth_or_search_witness :
  exists o,
    Harmonics.get_harmonics_options Sample.env Harmonics.Parsed.defaults
      ["stations.pkl"] []
    = Ok (o, "stations.pkl", []) /\
    Harmonics.azim o = Some 0%float /\ Harmonics.find_azim o = false.
Proof.
  eexists. split; [cbv; reflexivity|].
  edestruct (harmonics_azimuth_or_search Sample.env Harmonics.Parsed.defaults
               ["stations.pkl"] []) as (_ & Ha & Hf & _); [cbv; reflexivity|].
  split; [exact Ha|exact Hf].
Defined.

Lemma plot_time_axis_witness :
  exists o,
    Plot.get_plot_options Sample.env (plot_nbaz (Some "P")) ["stations.pkl"] []
    = Ok (o, "stations.pkl", []) /\
    Plot.trange o = None /\
    Plot.tmin o = Some 0%float /\ Plot.tmax o = Some 30%float.
Proof.
  eexists. split; [cbv; reflexivity|].
  edestruct (plot_time_axis Sample.env (plot_nbaz (Some "P"))
               ["stations.pkl"] []) as (Haxis & _); [cbv; reflexivity|].
  exact Haxis.
Defined.
